(** * tap-iceberg: the Iceberg table stream ([tap_iceberg/streams.py])

    A shallow embedding of [IcebergTableStream]: the watermark filter built by
    [get_records], the per-batch sort of [_create_sorted_batch_reader], and the
    record formatters of [_create_formatters], [_format_date] and
    [_format_record], followed by the properties the specification states
    about them.

    Python values are a small tagged union, dictionaries keyed by field name
    are [gmap string _] (or their item lists where iteration order is part of
    the behaviour), exceptions are an error type, and the generator returned
    by [get_records] is the list of records it yields together with the
    exception, if any, that ends the iteration. *)

From Stdlib Require Import ZArith String Ascii List Lia.
From stdpp Require Import base gmap strings list fin_maps sorting.

Open Scope string_scope.
Open Scope Z_scope.

(** ** Python values *)

Module Py.

(** [datetime.date]. *)
Record date := Date { d_year : Z; d_month : Z; d_day : Z }.

(** [datetime.datetime]; [tzinfo] is the UTC offset in microseconds of an
    aware value, [None] for a naive one. *)
Record datetime := Datetime {
  year : Z; month : Z; day : Z;
  hour : Z; minute : Z; second : Z; microsecond : Z;
  tzinfo : option Z
}.

(** The values that occur as cells of a row, as cursor values and as
    formatter results. *)
Inductive Value :=
| VNone
| VBool (b : bool)
| VInt (n : Z)
| VStr (s : string)
| VBytes (s : string)
| VDate (d : date)
| VDatetime (dt : datetime).

(** The exceptions the stream can raise, its own and those of the libraries
    it calls. *)
Inductive Error :=
| ValueError (msg : string)
| KeyError (key : string)
| TypeError (msg : string)
| ValidationError (msg : string)
| ArrowInvalid (msg : string).

Inductive result (A : Type) :=
| Ok (a : A)
| Raise (e : Error).
Arguments Ok {A} a.
Arguments Raise {A} e.

(** [bool(v)]: the test of [if v:]. *)
Definition truthy (v : Value) : bool :=
  match v with
  | VNone => false
  | VBool b => b
  | VInt n => negb (n =? 0)
  | VStr s => negb (String.eqb s "")
  | VBytes s => negb (String.eqb s "")
  | VDate _ => true
  | VDatetime _ => true
  end.

(** [isinstance(v, str)] and [isinstance(v, (date, datetime))]. *)
Definition is_str (v : Value) : bool :=
  match v with VStr _ => true | _ => false end.

Definition is_date_or_datetime (v : Value) : bool :=
  match v with VDate _ | VDatetime _ => true | _ => false end.

(** [s[:n]]. *)
Definition slice_to (n : nat) (s : string) : string := substring 0 n s.

(** *** Printing: [isoformat] *)

Definition digit_char (n : Z) : ascii := ascii_of_nat (48 + Z.to_nat (n mod 10)).

(** The [width] low-order decimal digits of [n]: the [%0<width>d] of a
    value in [0 .. 10^width - 1], which is the range of every field of a
    date or a datetime. *)
Fixpoint zfill (width : nat) (n : Z) : string :=
  match width with
  | O => ""
  | S w => zfill w (n / 10) +:+ String (digit_char n) ""
  end.

Definition date_isoformat (d : date) : string :=
  zfill 4 (d_year d) +:+ "-" +:+ zfill 2 (d_month d) +:+ "-" +:+ zfill 2 (d_day d).

(** The UTC offset suffix [+HH:MM[:SS[.ffffff]]]. *)
Definition offset_isoformat (off : Z) : string :=
  let sign := if off <? 0 then "-" else "+" in
  let a := Z.abs off in
  let us := a mod 1000000 in
  let s := a / 1000000 in
  let ss := s mod 60 in
  let mm := (s / 60) mod 60 in
  let hh := s / 3600 in
  sign +:+ zfill 2 hh +:+ ":" +:+ zfill 2 mm +:+
  (if (ss =? 0) && (us =? 0) then ""
   else ":" +:+ zfill 2 ss +:+ (if us =? 0 then "" else "." +:+ zfill 6 us)).

(** The date and the clock of [datetime.isoformat()], without the offset. *)
Definition naive_isoformat (dt : datetime) : string :=
  zfill 4 (year dt) +:+ "-" +:+ zfill 2 (month dt) +:+ "-" +:+ zfill 2 (day dt) +:+
  "T" +:+ zfill 2 (hour dt) +:+ ":" +:+ zfill 2 (minute dt) +:+ ":" +:+ zfill 2 (second dt) +:+
  (if microsecond dt =? 0 then "" else "." +:+ zfill 6 (microsecond dt)).

(** [datetime.isoformat()]: an aware value carries its offset at the end. *)
Definition datetime_isoformat (dt : datetime) : string :=
  naive_isoformat dt +:+
  match tzinfo dt with
  | None => ""
  | Some off => offset_isoformat off
  end.

(** [dt.replace(tzinfo=None)]. *)
Definition replace_tzinfo_None (dt : datetime) : datetime :=
  Datetime (year dt) (month dt) (day dt)
           (hour dt) (minute dt) (second dt) (microsecond dt) None.

(** *** Parsing ISO texts

    What [datetime.fromisoformat] accepts depends on the Python version, so
    the stream below takes the parser from its host. The parser defined
    here is one instance, for the examples: it reads the grammar
    [YYYY-MM-DD[*HH[:MM[:SS[.fff[fff]]]][+HH:MM[:SS[.ffffff]]]]],
    which covers the texts [isoformat] writes, with the range checks of the
    [datetime] constructor. *)

Definition digit_of (c : ascii) : option Z :=
  let n := Z.of_nat (nat_of_ascii c) in
  if (48 <=? n) && (n <=? 57) then Some (n - 48) else None.

Fixpoint digits_acc (acc : Z) (cs : list ascii) : option Z :=
  match cs with
  | [] => Some acc
  | c :: cs' =>
      match digit_of c with
      | Some d => digits_acc (10 * acc + d) cs'
      | None => None
      end
  end.

(** [int(s)] for a non-empty run of decimal digits. *)
Definition parse_digits (cs : list ascii) : option Z :=
  match cs with
  | [] => None
  | _ => digits_acc 0 cs
  end.

Definition is_leap (y : Z) : bool :=
  ((y mod 4 =? 0) && negb (y mod 100 =? 0)) || (y mod 400 =? 0).

Definition days_in_month (y m : Z) : Z :=
  if m =? 2 then (if is_leap y then 29 else 28)
  else if (m =? 4) || (m =? 6) || (m =? 9) || (m =? 11) then 30
  else 31.

Definition valid_date (y m d : Z) : bool :=
  (1 <=? y) && (y <=? 9999) && (1 <=? m) && (m <=? 12) &&
  (1 <=? d) && (d <=? days_in_month y m).

Definition valid_time (h mi s us : Z) : bool :=
  (0 <=? h) && (h <? 24) && (0 <=? mi) && (mi <? 60) &&
  (0 <=? s) && (s <? 60) && (0 <=? us) && (us <? 1000000).

(** [YYYY-MM-DD], exactly ten characters. *)
Definition parse_isoformat_date (cs : list ascii) : option (Z * Z * Z) :=
  match cs with
  | [y1; y2; y3; y4; s1; m1; m2; s2; d1; d2] =>
      if Ascii.eqb s1 "-" && Ascii.eqb s2 "-" then
        match parse_digits [y1; y2; y3; y4], parse_digits [m1; m2], parse_digits [d1; d2] with
        | Some y, Some m, Some d => Some (y, m, d)
        | _, _, _ => None
        end
      else None
  | _ => None
  end.

(** The fraction [.fff] or [.ffffff], or nothing. *)
Definition parse_fraction (cs : list ascii) : option Z :=
  match cs with
  | [] => Some 0
  | dot :: ds =>
      if Ascii.eqb dot "." then
        match length ds with
        | 3%nat => option_map (Z.mul 1000) (parse_digits ds)
        | 6%nat => parse_digits ds
        | _ => None
        end
      else None
  end.

(** [HH[:MM[:SS[.fff[fff]]]]] as (hour, minute, second, microsecond). *)
Definition parse_hh_mm_ss_ff (cs : list ascii) : option (Z * Z * Z * Z) :=
  match cs with
  | [h1; h2] =>
      option_map (fun h => (h, 0, 0, 0)) (parse_digits [h1; h2])
  | [h1; h2; c1; m1; m2] =>
      if Ascii.eqb c1 ":" then
        match parse_digits [h1; h2], parse_digits [m1; m2] with
        | Some h, Some m => Some (h, m, 0, 0)
        | _, _ => None
        end
      else None
  | h1 :: h2 :: c1 :: m1 :: m2 :: c2 :: s1 :: s2 :: rest =>
      if Ascii.eqb c1 ":" && Ascii.eqb c2 ":" then
        match parse_digits [h1; h2], parse_digits [m1; m2],
              parse_digits [s1; s2], parse_fraction rest with
        | Some h, Some m, Some s, Some us => Some (h, m, s, us)
        | _, _, _, _ => None
        end
      else None
  | _ => None
  end.

(** Splits a time string at its first [+] or [-]: the clock part, and the
    sign and text of the offset when there is one. *)
Fixpoint split_offset (cs : list ascii) : list ascii * option (Z * list ascii) :=
  match cs with
  | [] => ([], None)
  | c :: cs' =>
      if Ascii.eqb c "+" then ([], Some (1, cs'))
      else if Ascii.eqb c "-" then ([], Some (-1, cs'))
      else let '(clock, off) := split_offset cs' in (c :: clock, off)
  end.

Definition offset_microseconds (h m s us : Z) : Z :=
  ((h * 60 + m) * 60 + s) * 1000000 + us.

Definition parse_offset (sign : Z) (cs : list ascii) : option Z :=
  match length cs with
  | 5%nat | 8%nat | 15%nat =>
      match parse_hh_mm_ss_ff cs with
      | Some (h, m, s, us) =>
          let off := offset_microseconds h m s us in
          if (m <? 60) && (s <? 60) && (off <? 86400000000)
          then Some (if off =? 0 then 0 else sign * off)
          else None
      | None => None
      end
  | _ => None
  end.

(** The time part: (hour, minute, second, microsecond, tzinfo). *)
Definition parse_isoformat_time (cs : list ascii)
  : option (Z * Z * Z * Z * option Z) :=
  let '(clock, off) := split_offset cs in
  match parse_hh_mm_ss_ff clock with
  | Some (h, m, s, us) =>
      match off with
      | None => Some (h, m, s, us, None)
      | Some (sign, tz) =>
          option_map (fun o => (h, m, s, us, Some o)) (parse_offset sign tz)
      end
  | None => None
  end.

(** A text of ten characters is a date, at midnight; a longer one has a
    separator and a time part, which must not be empty. *)
Definition parse_isoformat (s : string) : option datetime :=
  let cs := list_ascii_of_string s in
  match parse_isoformat_date (take 10 cs),
        (if (length cs =? 10)%nat then Some (0, 0, 0, 0, None)
         else parse_isoformat_time (drop 11 cs)) with
  | Some (y, m, d), Some (h, mi, sec, us, tz) =>
      if valid_date y m d && valid_time h mi sec us
      then Some (Datetime y m d h mi sec us tz)
      else None
  | _, _ => None
  end.

(** The parser as a [fromisoformat]: it raises [ValueError] on a text it
    does not read. *)
Definition reference_fromisoformat (s : string) : result datetime :=
  match parse_isoformat s with
  | Some dt => Ok dt
  | None => Raise (ValueError ("Invalid isoformat string: '" +:+ s +:+ "'"))
  end.

End Py.

Import Py.

(** ** The table layer (pyiceberg and pyarrow) *)

Module Table.

(** [pyiceberg.expressions]: the two row filters the stream builds.
    [GreaterThan term literal] keeps the rows whose [term] field is
    strictly greater than [literal]; the term is what
    [self.replication_key] evaluates to. *)
Inductive Expression :=
| AlwaysTrue
| GreaterThan (term : option string) (literal : Value).

(** [pa.RecordBatch]: named columns over a finite list of rows; the cells
    of a row are in column order. *)
Record RecordBatch := Batch {
  column_names : list string;
  batch_rows : list (list Value)
}.

(** A row as [to_pylist] returns it: a dictionary, as its items in column
    order. *)
Definition Record_ := list (string * Value).

Definition to_pylist (b : RecordBatch) : list Record_ :=
  map (fun row => zip (column_names b) row) (batch_rows b).

Inductive SortDirection := Asc | Desc.

(** [pyiceberg.table.sorting.SortField]. *)
Record SortField := MkSortField {
  source_id : Z;
  direction : SortDirection
}.

(** [pyiceberg.types.NestedField], as far as the stream reads it. *)
Record NestedField := MkNestedField {
  field_id : Z;
  field_name : string
}.

(** [pyiceberg.table.Table]: its schema, its sort order, and its scan as
    the finite sequence of batches [scan(row_filter=f)
    .to_arrow_batch_reader()] delivers. *)
Record IcebergTable := MkTable {
  table_schema : list NestedField;
  sort_order_fields : list SortField;
  scan : Expression -> list RecordBatch
}.

(** [SortOrder.is_unsorted]. *)
Definition is_unsorted (t : IcebergTable) : bool :=
  (length (sort_order_fields t) =? 0)%nat.

(** [Schema.find_field(id)]; it raises [ValueError] on an unknown id. *)
Definition find_field (t : IcebergTable) (id : Z) : result NestedField :=
  match List.find (fun f => field_id f =? id) (table_schema t) with
  | Some f => Ok f
  | None => Raise (ValueError "Could not find field")
  end.

(** *** The order of [sort_by]

    Arrow orders a column by the natural order of its type, ascending,
    nulls last. A cell is mapped to a list of integers compared
    lexicographically: a rank for its type ([VNone] the highest), then the
    integer, the character codes of the text, or the calendar fields. A
    column holds one type, so the ranks only ever separate nulls from
    values. *)

Definition codes (s : string) : list Z :=
  map (fun c => Z.of_nat (nat_of_ascii c)) (list_ascii_of_string s).

Definition sort_key (v : Value) : list Z :=
  match v with
  | VBool b => [0; if b then 1 else 0]
  | VInt n => [1; n]
  | VStr s => 2 :: codes s
  | VBytes s => 3 :: codes s
  | VDate d => [4; d_year d; d_month d; d_day d]
  | VDatetime dt =>
      [5; year dt; month dt; day dt; hour dt; minute dt; second dt; microsecond dt]
  | VNone => [6]
  end.

Fixpoint lex_leb (xs ys : list Z) : bool :=
  match xs, ys with
  | [], _ => true
  | _ :: _, [] => false
  | x :: xs', y :: ys' => (x <? y) || ((x =? y) && lex_leb xs' ys')
  end.

Definition value_leb (v w : Value) : bool := lex_leb (sort_key v) (sort_key w).

(** The cell of [row] in column [i]. *)
Definition cell (i : nat) (row : list Value) : Value := nth i row VNone.

(** The position of column [name]. *)
Fixpoint column_index (name : string) (names : list string) : option nat :=
  match names with
  | [] => None
  | n :: names' =>
      if String.eqb n name then Some O
      else option_map S (column_index name names')
  end.

(** Rows ordered by their cell in column [i]. *)
Definition row_le (i : nat) (r1 r2 : list Value) : Prop :=
  value_leb (cell i r1) (cell i r2) = true.

#[global] Instance row_le_dec i r1 r2 : Decision (row_le i r1 r2).
Proof. unfold row_le. apply bool_eq_dec. Defined.

(** [row] put into the ascending list [rows], before the first row that is
    not below it. *)
Fixpoint insert_row (i : nat) (row : list Value) (rows : list (list Value))
  : list (list Value) :=
  match rows with
  | [] => [row]
  | r :: rows' =>
      if value_leb (cell i row) (cell i r) then row :: r :: rows'
      else r :: insert_row i row rows'
  end.

(** The rows in ascending order of their cell in column [i]; rows with
    equal cells keep their order (Arrow's sort is stable). *)
Fixpoint sort_rows (i : nat) (rows : list (list Value)) : list (list Value) :=
  match rows with
  | [] => []
  | r :: rows' => insert_row i r (sort_rows i rows')
  end.

(** [batch.sort_by(sort_key)]: a stable ascending sort of the rows on one
    column; an unknown column is an error. *)
Definition sort_by (b : RecordBatch) (key : string) : result RecordBatch :=
  match column_index key (column_names b) with
  | Some i => Ok (Batch (column_names b) (sort_rows i (batch_rows b)))
  | None => Raise (ArrowInvalid key)
  end.

End Table.

Import Table.

(** ** Generators *)

Module Gen.

(** A finished run of a Python generator: what it yielded, in order, and
    the exception that ended it, if one did. *)
Record Run (A : Type) := MkRun {
  yielded : list A;
  raised : option Error
}.
Arguments MkRun {A} yielded raised.
Arguments yielded {A} r.
Arguments raised {A} r.

(** A generator that yields the items of a list and returns. *)
Definition of_list {A} (xs : list A) : Run A := MkRun xs None.

(** A generator that raises at once. *)
Definition fail {A} (e : Error) : Run A := MkRun [] (Some e).

(** [r1] followed by [r2], unless [r1] raised. *)
Definition seq {A} (r1 r2 : Run A) : Run A :=
  match raised r1 with
  | Some _ => r1
  | None => MkRun (yielded r1 ++ yielded r2) (raised r2)
  end.

(** [for x in xs: <body x>], then [rest]. *)
Fixpoint for_each {A B} (xs : list A) (body : A -> Run B) (rest : Run B) : Run B :=
  match xs with
  | [] => rest
  | x :: xs' => seq (body x) (for_each xs' body rest)
  end.

(** [for x in r: <body x>] over a generator [r]: the exception that ends
    [r] ends the loop. *)
Definition for_in {A B} (r : Run A) (body : A -> Run B) : Run B :=
  for_each (yielded r) body (MkRun [] (raised r)).

(** [yield v] where computing [v] may raise. *)
Definition yield_result {A} (v : result A) : Run A :=
  match v with
  | Ok a => MkRun [a] None
  | Raise e => fail e
  end.

End Gen.

Import Gen.

(** ** [IcebergTableStream] *)

(** Modelled from the spec: the entry of one field in
    [self.schema["properties"]], which [generate_schema_from_pyarrow]
    (tap_iceberg/utils.py) produces: [type] is a list of JSON type names that
    includes ["null"] when the field is nullable, and [format] is ["date"]
    on a date field. *)
Record FieldSchema := MkFieldSchema {
  type : list string;
  format : option string
}.

#[global] Instance FieldSchema_eq_dec : EqDecision FieldSchema.
Proof. solve_decision. Defined.

(** The declared schema marks the field nullable. *)
Definition nullable (s : FieldSchema) : Prop := "null" ∈ type s.

(** The field's logical format is date. *)
Definition is_date_format (s : FieldSchema) : Prop := format s = Some "date".

(** The stream object: the attributes the methods below read. [schema] is
    [self.schema["properties"]]. *)
Record IcebergTableStream := MkStream {
  name : string;
  schema : gmap string FieldSchema;
  _iceberg_table : IcebergTable;
  _replication_key : option string
}.

(** The sync context the host passes to [get_records]. *)
Definition Context := option (gmap string Value).

Section Constructor.

(** [generate_schema_from_pyarrow] (tap_iceberg/utils.py), applied to the
    table's schema. *)
Variable generate_schema_from_pyarrow : list NestedField -> gmap string FieldSchema.

(** [IcebergTableStream.__init__]: the replication key is the table's sort
    field when the sort order has exactly one. The model covers the
    constructions in which [generate_schema_from_pyarrow] and the
    constructor of the SDK's [Stream] return; a failure of either ends the
    construction before the lines modelled here and is not represented. *)
Definition __init__ (name : string) (iceberg_table : IcebergTable)
  : result IcebergTableStream :=
  let schema := generate_schema_from_pyarrow (table_schema iceberg_table) in
  let self := MkStream name schema iceberg_table None in
  let sort_fields := sort_order_fields iceberg_table in
  if (length sort_fields =? 1)%nat then
    match sort_fields with
    | sort_field :: _ =>
        match find_field iceberg_table (source_id sort_field) with
        | Ok f => Ok (MkStream name schema iceberg_table (Some (field_name f)))
        | Raise e => Raise e
        end
    | [] => Ok self
    end
  else Ok self.

End Constructor.

(** [Stream.replication_key] of the SDK: the attribute, or [None] when it is
    unset or empty. *)
Definition replication_key (self : IcebergTableStream) : option string :=
  match _replication_key self with
  | Some k => if String.eqb k "" then None else Some k
  | None => None
  end.

(** The setter of [Stream.replication_key], through which the host applies
    the replication key of a catalog entry. *)
Definition set_replication_key (new_value : option string) (self : IcebergTableStream)
  : IcebergTableStream :=
  MkStream (name self) (schema self) (_iceberg_table self) new_value.

(** [is_sorted]. *)
Definition is_sorted (self : IcebergTableStream) : bool :=
  negb (is_unsorted (_iceberg_table self)).

(** [_create_sorted_batch_reader]: the generator [sorted_batch_generator]
    behind the new reader. *)
Definition _create_sorted_batch_reader (reader : list RecordBatch) (sort_key : string)
  : Run RecordBatch :=
  for_each reader (fun batch => yield_result (sort_by batch sort_key)) (of_list []).

(** [_format_date]. *)
Definition _format_date (value : Value) : Value :=
  match value with
  | VDate d => VStr (slice_to 10 (date_isoformat d))
  | VDatetime dt => VStr (slice_to 10 (datetime_isoformat dt))
  | VStr s => VStr (slice_to 10 s)
  | _ => VNone
  end.

(** [_create_formatters]: the loop over [self.schema["properties"].items()].
    The keys of a dictionary are distinct, so the order in which the items
    are visited does not show in the result. *)
Definition _create_formatters (self : IcebergTableStream) : gmap string (Value -> Value) :=
  foldl
    (fun formatters '(field, schema) =>
       if bool_decide (format schema = Some "date")
          && bool_decide (type schema = ["string"; "null"])
       then <[field := fun x => _format_date x]> formatters
       else if bool_decide ("null" ∈ type schema)
       then <[field := fun x => match x with VNone => VNone | _ => x end]> formatters
       else <[field := fun x => x]> formatters)
    ∅
    (map_to_list (schema self)).

(** [_format_record]: [formatters[field]] raises [KeyError] on a field
    without a formatter. *)
Fixpoint _format_record (record : Record_) (formatters : gmap string (Value -> Value))
  : result Record_ :=
  match record with
  | [] => Ok []
  | (field, value) :: items =>
      match formatters !! field with
      | None => Raise (KeyError field)
      | Some f =>
          match _format_record items formatters with
          | Ok out => Ok ((field, f value) :: out)
          | Raise e => Raise e
          end
      end
  end.

(** What [get_records] calls outside the stream, whose behaviour is that of
    the installed versions of the SDK, of Python and of pyiceberg:
    - [get_starting_replication_key_value]: the method of the SDK's
      [Stream], the cursor value resolved for this stream and context,
      [VNone] when there is none;
    - [fromisoformat]: [datetime.fromisoformat], which returns a datetime or
      raises;
    - [greater_than_error]: the exception with which the constructor
      [GreaterThan(term, literal)] rejects its arguments, [None] when it
      accepts them. *)
Record Runtime := MkRuntime {
  get_starting_replication_key_value : IcebergTableStream -> Context -> Value;
  fromisoformat : string -> result datetime;
  greater_than_error : option string -> Value -> option Error
}.

(** The call [GreaterThan(term, literal)]: the predicate, unless the
    constructor rejects the arguments. *)
Definition new_GreaterThan (host : Runtime) (term : option string) (literal : Value)
  : result Expression :=
  match greater_than_error host term literal with
  | Some e => Raise e
  | None => Ok (GreaterThan term literal)
  end.



Section GetRecords.

Variable host : Runtime.

(** The first part of [get_records]: the row filter of the scan. An
    exception of [fromisoformat] or of [GreaterThan] is not caught. *)
Definition filter_expression (self : IcebergTableStream) (context : Context)
  : result Expression :=
  let start_value := get_starting_replication_key_value host self context in
  if truthy start_value then
    match start_value with
    | VStr s =>
        match fromisoformat host s with
        | Ok dt =>
            new_GreaterThan host (replication_key self)
              (VStr (datetime_isoformat (replace_tzinfo_None dt)))
        | Raise e => Raise e
        end
    | _ => new_GreaterThan host (replication_key self) start_value
    end
  else Ok AlwaysTrue.

(** The second part: the reader of the scan, wrapped in the per-batch sort
    if the replication key is set and the table is not sorted. In that
    branch the attribute [_replication_key] the code passes on is the value
    of the property [replication_key]. *)
Definition batch_reader (self : IcebergTableStream) (row_filter : Expression)
  : Run RecordBatch :=
  let reader := scan (_iceberg_table self) row_filter in
  match replication_key self with
  | Some key =>
      if negb (is_sorted self) then _create_sorted_batch_reader reader key
      else of_list reader
  | None => of_list reader
  end.

(** [get_records]: nothing runs before the first record is requested, so an
    exception of the filter is the first thing the consumer sees. *)
Definition get_records (self : IcebergTableStream) (context : Context) : Run Record_ :=
  match filter_expression self context with
  | Raise e => fail e
  | Ok row_filter =>
      let reader := batch_reader self row_filter in
      let formatters := _create_formatters self in
      for_in reader (fun batch =>
        for_each (to_pylist batch)
          (fun record => yield_result (_format_record record formatters))
          (of_list []))
  end.

End GetRecords.

(** ** Notions the properties are stated with, and example data *)

(** The rule the loop of [_create_formatters] assigns to one field. *)
Definition formatter_of (s : FieldSchema) : Value -> Value :=
  if bool_decide (format s = Some "date") && bool_decide (type s = ["string"; "null"])
  then _format_date
  else if bool_decide ("null" ∈ type s)
  then fun x => match x with VNone => VNone | _ => x end
  else fun x => x.

(** The fields of a record, in order. *)
Definition keys (record : Record_) : list string := record.*1.

(** A stream over an empty table with the given field specifications. *)
Definition stream_with_schema (properties : gmap string FieldSchema) : IcebergTableStream :=
  MkStream "t" properties (MkTable [] [] (fun _ => [])) None.

(** The relation of [sort_by] between a batch and its sorted copy: the same
    columns, the same rows up to order, and the rows ascending (nulls last)
    on the cells of the key's column. *)
Definition sorted_copy_of (sort_key : string) (b b' : RecordBatch) : Prop :=
  exists i, column_index sort_key (column_names b) = Some i
            /\ column_names b' = column_names b
            /\ batch_rows b' ≡ₚ batch_rows b
            /\ StronglySorted (row_le i) (batch_rows b').

(** The records [get_records] yields from a reader: every row of every
    batch, formatted, in order. *)
Definition format_batches (self : IcebergTableStream) (reader : Run RecordBatch)
  : Run Record_ :=
  for_in reader (fun batch =>
    for_each (to_pylist batch)
      (fun record => yield_result (_format_record record (_create_formatters self)))
      (of_list [])).

(** The name of the table's leading sort field, if it has one. *)
Definition leading_sort_field (t : IcebergTable) : option string :=
  match sort_order_fields t with
  | [] => None
  | sf :: _ =>
      match find_field t (source_id sf) with
      | Ok f => Some (field_name f)
      | Raise _ => None
      end
  end.

(** The table is sorted on [key]: [key] is its leading sort field. *)
Definition table_sorted_on (self : IcebergTableStream) (key : string) : Prop :=
  leading_sort_field (_iceberg_table self) = Some key.

(** A schema generator for the examples: three fields, [ts] a nullable
    date. *)
Definition example_schema (_ : list NestedField) : gmap string FieldSchema :=
  {[ "id" := MkFieldSchema ["integer"] None;
     "ts" := MkFieldSchema ["string"; "null"] (Some "date");
     "val" := MkFieldSchema ["string"; "null"] None ]}.

Definition example_columns : list NestedField :=
  [MkNestedField 1 "id"; MkNestedField 2 "ts"; MkNestedField 3 "val"].

(** A table layer for the examples: one batch of three rows, of which a
    greater-than scan keeps the two after 2023-01-01. *)
Definition example_scan (row_filter : Expression) : list RecordBatch :=
  match row_filter with
  | AlwaysTrue =>
      [Batch ["id"; "ts"; "val"]
         [[VInt 1; VDate (Date 2023 1 5); VStr "a"];
          [VInt 2; VDate (Date 2023 1 2); VNone];
          [VInt 3; VDate (Date 2023 1 1); VStr "c"]]]
  | GreaterThan _ _ =>
      [Batch ["id"; "ts"; "val"]
         [[VInt 1; VDate (Date 2023 1 5); VStr "a"];
          [VInt 2; VDate (Date 2023 1 2); VNone]]]
  end.

(** The example table without a sort order, and sorted on [id]. *)
Definition unsorted_table : IcebergTable := MkTable example_columns [] example_scan.

Definition table_sorted_on_id : IcebergTable :=
  MkTable example_columns [MkSortField 1 Asc] example_scan.

(** The stream [__init__] builds over [t], with the replication key the
    host then sets. *)
Definition example_stream (t : IcebergTable) (key : option string) : IcebergTableStream :=
  match __init__ example_schema "example" t with
  | Ok self => set_replication_key key self
  | Raise _ => MkStream "example" ∅ t key
  end.

(** The host with the cursor value [v] in the place of what it resolves. *)
Definition with_cursor (v : Value) (host : Runtime) : Runtime :=
  MkRuntime (fun _ _ => v) (fromisoformat host) (greater_than_error host).

(** A host for the examples: it resolves the same starting value for every
    stream and context, parses with [reference_fromisoformat], and its
    [GreaterThan] accepts every argument. *)
Definition host_resolving (v : Value) : Runtime :=
  MkRuntime (fun _ _ => v) reference_fromisoformat (fun _ _ => None).

(** The parser reads back what it parsed: the ISO text, without offset, of
    a datetime it returned gives that datetime, naive. ([fromisoformat] is
    the inverse of [isoformat].) *)
Definition parses_back (host : Runtime) : Prop :=
  forall s dt, fromisoformat host s = Ok dt ->
               fromisoformat host (naive_isoformat dt) = Ok (replace_tzinfo_None dt).

(** The field is one [_create_formatters] gives the date-truncation rule:
    its specification has format ["date"] and type [["string", "null"]]. *)
Definition truncates (self : IcebergTableStream) (field : string) : bool :=
  match schema self !! field with
  | Some s =>
      bool_decide (format s = Some "date") && bool_decide (type s = ["string"; "null"])
  | None => false
  end.

(** The record [_format_record] is to return: the date fields truncated,
    every other field as it is. *)
Definition expected_record (self : IcebergTableStream) (record : Record_) : Record_ :=
  map (fun kv => (kv.1, if truncates self kv.1 then _format_date kv.2 else kv.2)) record.

(** All rows of a sequence of batches, as [to_pylist] returns them, in
    order. *)
Definition all_rows (batches : list RecordBatch) : list Record_ :=
  concat (to_pylist <$> batches).

(** Every column of the batch has a specification in the stream's schema. *)
Definition columns_in_schema (self : IcebergTableStream) (b : RecordBatch) : Prop :=
  Forall (fun c => is_Some (schema self !! c)) (column_names b).

(** A stream without a replication key over a table that has no sort order
    and delivers the given batches on every scan. *)
Definition stream_over (properties : gmap string FieldSchema) (batches : list RecordBatch)
  : IcebergTableStream :=
  MkStream "t" properties (MkTable [] [] (fun _ => batches)) None.

(** * Properties *)

(** ** The models of the libraries, on examples *)

Example parse_isoformat_utc :
  parse_isoformat "2023-01-01T00:00:00+00:00"
  = Some (Datetime 2023 1 1 0 0 0 0 (Some 0)).
Proof. reflexivity. Qed.

Example parse_isoformat_date_only :
  parse_isoformat "2023-05-17" = Some (Datetime 2023 5 17 0 0 0 0 None).
Proof. reflexivity. Qed.

Example parse_isoformat_fraction_offset :
  parse_isoformat "2023-05-17 10:20:30.250-05:30"
  = Some (Datetime 2023 5 17 10 20 30 250000 (Some (-19800000000))).
Proof. reflexivity. Qed.

Example parse_isoformat_empty : parse_isoformat "" = None.
Proof. reflexivity. Qed.

Example parse_isoformat_garbage : parse_isoformat "not-a-date" = None.
Proof. reflexivity. Qed.

Example parse_isoformat_bad_day : parse_isoformat "2023-02-30T00:00:00" = None.
Proof. reflexivity. Qed.

Example parse_isoformat_empty_time : parse_isoformat "2023-01-01T" = None.
Proof. reflexivity. Qed.

Example reference_fromisoformat_raises :
  reference_fromisoformat "yesterday"
  = Raise (ValueError "Invalid isoformat string: 'yesterday'").
Proof. reflexivity. Qed.

Example isoformat_naive :
  datetime_isoformat (replace_tzinfo_None (Datetime 2023 5 17 10 20 30 250000 (Some 0)))
  = "2023-05-17T10:20:30.250000".
Proof. reflexivity. Qed.

Example sort_by_example :
  sort_by (Batch ["id"; "ts"]
             [[VInt 1; VInt 30]; [VInt 2; VNone]; [VInt 3; VInt 10]; [VInt 4; VInt 20]])
          "ts"
  = Ok (Batch ["id"; "ts"]
          [[VInt 3; VInt 10]; [VInt 4; VInt 20]; [VInt 1; VInt 30]; [VInt 2; VNone]]).
Proof. reflexivity. Qed.

Example sort_by_strings :
  sort_by (Batch ["ts"] [[VStr "2023-01-05"]; [VStr "2023-01-02"]; [VStr "2023-01"]]) "ts"
  = Ok (Batch ["ts"] [[VStr "2023-01"]; [VStr "2023-01-02"]; [VStr "2023-01-05"]]).
Proof. reflexivity. Qed.

Example sort_by_keeps_the_order_of_equal_keys :
  sort_by (Batch ["id"; "ts"]
             [[VInt 1; VInt 5]; [VInt 2; VInt 5]; [VInt 0; VInt 9]; [VInt 3; VInt 5]])
          "ts"
  = Ok (Batch ["id"; "ts"]
          [[VInt 1; VInt 5]; [VInt 2; VInt 5]; [VInt 3; VInt 5]; [VInt 0; VInt 9]]).
Proof. reflexivity. Qed.

Example sort_by_unknown_column :
  sort_by (Batch ["id"] [[VInt 1]]) "ts" = Raise (ArrowInvalid "ts").
Proof. reflexivity. Qed.

(** ** The formatters *)

Lemma foldl_insert_lookup {A B} (g : A -> B) (l : list (string * A))
    (acc : gmap string B) (k : string) :
  NoDup l.*1 ->
  foldl (fun m '(f, a) => <[f := g a]> m) acc l !! k
  = match (list_to_map l : gmap string A) !! k with
    | Some a => Some (g a)
    | None => acc !! k
    end.
Proof.
  revert acc. induction l as [|[f a] l IH]; intros acc Hnd; simpl.
  - by rewrite lookup_empty.
  - inversion Hnd as [|? ? Hnotin Hnd']; subst.
    rewrite IH by done.
    destruct (decide (f = k)) as [->|Hne].
    + rewrite lookup_insert_eq.
      rewrite (not_elem_of_list_to_map_1 l k) by done.
      by rewrite lookup_insert_eq.
    + rewrite !lookup_insert_ne by done.
      by destruct (list_to_map l !! k).
Qed.

Lemma foldl_step_ext {A B} (f g : A -> B -> A) (l : list B) (a : A) :
  (forall x y, f x y = g x y) -> foldl f a l = foldl g a l.
Proof.
  intros Hfg. revert a. induction l as [|y l IH]; intros a; simpl; [done|].
  by rewrite Hfg, IH.
Qed.

Lemma _create_formatters_lookup (self : IcebergTableStream) (field : string) :
  _create_formatters self !! field = formatter_of <$> schema self !! field.
Proof.
  unfold _create_formatters.
  rewrite (foldl_step_ext _ (fun m '(f, a) => <[f := formatter_of a]> m)).
  - rewrite foldl_insert_lookup by apply NoDup_fst_map_to_list.
    rewrite list_to_map_to_list, lookup_empty.
    by destruct (schema self !! field).
  - intros m [f a]. unfold formatter_of.
    destruct (bool_decide (format a = Some "date") && _); [done|].
    by destruct (bool_decide ("null" ∈ type a)).
Qed.

(** Every rule but the date truncation returns its argument. *)
Lemma formatter_of_identity (s : FieldSchema) (x : Value) :
  ~ (format s = Some "date" /\ type s = ["string"; "null"]) ->
  formatter_of s x = x.
Proof.
  intros Hno. unfold formatter_of.
  destruct (bool_decide (format s = Some "date")) eqn:Hf;
    destruct (bool_decide (type s = ["string"; "null"])) eqn:Ht; simpl;
    try (apply bool_decide_eq_true in Hf, Ht; tauto);
    destruct (bool_decide ("null" ∈ type s)); try done; by destruct x.
Qed.

Lemma formatter_of_date (s : FieldSchema) :
  format s = Some "date" -> type s = ["string"; "null"] -> formatter_of s = _format_date.
Proof.
  intros Hf Ht. unfold formatter_of.
  by rewrite (bool_decide_eq_true_2 _ Hf), (bool_decide_eq_true_2 _ Ht).
Qed.

(** [_format_record] succeeds exactly on the records whose fields all have
    a formatter, and then applies each field's formatter in place. *)
Lemma _format_record_ok (record : Record_) (formatters : gmap string (Value -> Value)) :
  Forall (fun k => is_Some (formatters !! k)) (keys record) ->
  _format_record record formatters
  = Ok (map (fun '(k, v) => (k, default (fun x => x) (formatters !! k) v)) record).
Proof.
  induction record as [|[k v] record IH]; intros Hall; simpl; [done|].
  unfold keys in Hall. simpl in Hall.
  inversion Hall as [|? ? [f Hf] Hall']; subst.
  rewrite Hf, IH by done. done.
Qed.

Lemma _format_record_raises (record : Record_) (formatters : gmap string (Value -> Value)) :
  ~ Forall (fun k => is_Some (formatters !! k)) (keys record) ->
  exists k, k ∈ keys record /\ formatters !! k = None
            /\ _format_record record formatters = Raise (KeyError k).
Proof.
  induction record as [|[k v] record IH]; intros Hnot; simpl.
  - destruct Hnot. constructor.
  - destruct (formatters !! k) as [f|] eqn:Hk.
    + destruct IH as (k' & Hin & Hnone & Hr).
      { intros Hall. apply Hnot. unfold keys. simpl.
        constructor; [by exists f|done]. }
      exists k'. rewrite Hr. split; [|done].
      unfold keys in *. simpl. by constructor.
    + exists k. split; [|done]. unfold keys. simpl. by constructor.
Qed.

Lemma keys_format_record (record out : Record_) (formatters : gmap string (Value -> Value)) :
  _format_record record formatters = Ok out -> keys out = keys record.
Proof.
  revert out. induction record as [|[k v] record IH]; intros out; simpl.
  - by intros [= <-].
  - destruct (formatters !! k); [|done].
    destruct (_format_record record formatters) as [out'|]; [|done].
    intros [= <-]. specialize (IH out' eq_refl).
    unfold keys in *. simpl. by f_equal.
Qed.

(** C6: on a field whose specification is a nullable date, that is type
    [["string", "null"]] with format ["date"], the formatter maps [None] to
    [None], the text "2023-05-17T10:00:00" to "2023-05-17", and the date
    2023-05-17 to "2023-05-17". *)
Theorem date_field_formatter_examples (self : IcebergTableStream) (field : string) :
  schema self !! field = Some (MkFieldSchema ["string"; "null"] (Some "date")) ->
  exists fmt,
    _create_formatters self !! field = Some fmt
    /\ fmt VNone = VNone
    /\ fmt (VStr "2023-05-17T10:00:00") = VStr "2023-05-17"
    /\ fmt (VDate (Date 2023 5 17)) = VStr "2023-05-17".
Proof.
  intros Hs. exists _format_date.
  rewrite _create_formatters_lookup, Hs. simpl.
  repeat split; reflexivity.
Qed.

Lemma date_field_formatter_examples_witness :
  exists fmt,
    _create_formatters
      (stream_with_schema {[ "ts" := MkFieldSchema ["string"; "null"] (Some "date") ]})
      !! "ts" = Some fmt
    /\ fmt VNone = VNone
    /\ fmt (VStr "2023-05-17T10:00:00") = VStr "2023-05-17"
    /\ fmt (VDate (Date 2023 5 17)) = VStr "2023-05-17".
Proof.
  apply (date_field_formatter_examples
           (stream_with_schema {[ "ts" := MkFieldSchema ["string"; "null"] (Some "date") ]})
           "ts").
  reflexivity.
Defined.

(** C7, as the code has it: a field gets the date-truncation rule exactly
    when its format is ["date"] and its type is the list
    [["string", "null"]]; every other field gets a rule that returns its
    argument. A field with the truncation rule is a nullable date field. *)
Theorem date_rule_iff_string_null_date (self : IcebergTableStream) (field : string)
    (s : FieldSchema) :
  schema self !! field = Some s ->
  (format s = Some "date" /\ type s = ["string"; "null"] ->
     _create_formatters self !! field = Some _format_date)
  /\ (~ (format s = Some "date" /\ type s = ["string"; "null"]) ->
        exists fmt, _create_formatters self !! field = Some fmt
                    /\ (forall x, fmt x = x)
                    /\ fmt <> _format_date)
  /\ (_create_formatters self !! field = Some _format_date ->
        is_date_format s /\ nullable s).
Proof.
  intros Hs. rewrite _create_formatters_lookup, Hs. simpl.
  assert (Hid : ~ (format s = Some "date" /\ type s = ["string"; "null"]) ->
                formatter_of s <> _format_date).
  { intros Hno Heq.
    pose proof (formatter_of_identity s (VInt 0) Hno) as Hx.
    rewrite Heq in Hx. discriminate Hx. }
  split; [|split].
  - intros [Hf Ht]. by rewrite formatter_of_date.
  - intros Hno. exists (formatter_of s). split; [done|]. split; [|by apply Hid].
    intros x. by apply formatter_of_identity.
  - intros [= Heq].
    destruct (decide (format s = Some "date" /\ type s = ["string"; "null"]))
      as [[Hf Ht]|Hno].
    + split; [done|]. unfold nullable. rewrite Ht. set_solver.
    + by destruct (Hid Hno).
Qed.

Lemma date_rule_iff_string_null_date_witness :
  _create_formatters
    (stream_with_schema {[ "ts" := MkFieldSchema ["string"; "null"] (Some "date") ]})
    !! "ts" = Some _format_date.
Proof.
  refine (proj1 (date_rule_iff_string_null_date
                   (stream_with_schema
                      {[ "ts" := MkFieldSchema ["string"; "null"] (Some "date") ]})
                   "ts" (MkFieldSchema ["string"; "null"] (Some "date")) _) _).
  - reflexivity.
  - split; reflexivity.
Defined.

(** C7, as stated, fails: a date field whose type list is
    [["null", "string"]] is nullable, and its formatter is not the
    truncation rule. *)
Lemma nullable_date_without_truncation :
  ~ (forall (self : IcebergTableStream) (field : string) (s : FieldSchema),
       schema self !! field = Some s ->
       is_date_format s -> nullable s ->
       _create_formatters self !! field = Some _format_date).
Proof.
  intros H.
  pose (s := MkFieldSchema ["null"; "string"] (Some "date")).
  specialize (H (stream_with_schema {[ "d" := s ]}) "d" s).
  rewrite _create_formatters_lookup in H.
  assert (Hs : schema (stream_with_schema {[ "d" := s ]}) !! "d" = Some s) by reflexivity.
  rewrite Hs in H. simpl in H.
  assert (Heq : Some (formatter_of s) = Some _format_date).
  { apply H; [done|reflexivity|]. unfold nullable, s. simpl. set_solver. }
  injection Heq as Heq.
  assert (Hx : formatter_of s (VStr "2023-05-17T10:00:00")
               = _format_date (VStr "2023-05-17T10:00:00")) by (by rewrite Heq).
  vm_compute in Hx. discriminate Hx.
Qed.

(** C8: a value that is neither a date, a datetime nor a string is
    formatted to [None]; formatting a record through the date rule is a
    result, not an exception. *)
Theorem _format_date_other_is_None (value : Value) :
  is_date_or_datetime value = false ->
  is_str value = false ->
  _format_date value = VNone
  /\ forall (field : string) (formatters : gmap string (Value -> Value)),
       formatters !! field = Some _format_date ->
       _format_record [(field, value)] formatters = Ok [(field, VNone)].
Proof.
  intros Hd Hs.
  assert (H : _format_date value = VNone) by (by destruct value).
  split; [done|].
  intros field formatters Hf. simpl. by rewrite Hf, H.
Qed.

Lemma _format_date_other_is_None_witness :
  _format_date (VInt 20230517) = VNone
  /\ forall (field : string) (formatters : gmap string (Value -> Value)),
       formatters !! field = Some _format_date ->
       _format_record [(field, VInt 20230517)] formatters = Ok [(field, VNone)].
Proof.
  apply (_format_date_other_is_None (VInt 20230517)); reflexivity.
Defined.

(** C9: on a record whose fields all have a specification, that holds no
    [None], and none of whose fields is a nullable date field,
    [_format_record] with the formatters of [_create_formatters] returns the
    record itself. *)
Theorem _format_record_identity (self : IcebergTableStream) (record : Record_) :
  Forall (fun k => is_Some (schema self !! k)) (keys record) ->
  Forall (fun kv => kv.2 <> VNone) record ->
  Forall (fun k => forall s, schema self !! k = Some s ->
                             ~ (is_date_format s /\ nullable s)) (keys record) ->
  _format_record record (_create_formatters self) = Ok record.
Proof.
  intros Hin _ Hnd.
  rewrite _format_record_ok.
  - f_equal. unfold keys in *. clear Hin.
    induction record as [|[k v] record IH]; simpl in *; [done|].
    inversion Hnd as [|? ? Hk Hnd']; subst.
    rewrite IH by done. f_equal. f_equal.
    rewrite _create_formatters_lookup.
    destruct (schema self !! k) as [s|] eqn:Hs; simpl; [|done].
    apply formatter_of_identity. intros [Hf Ht].
    apply (Hk s eq_refl). split; [done|].
    unfold nullable. rewrite Ht. set_solver.
  - eapply Forall_impl; [exact Hin|].
    intros k [s Hs]. rewrite _create_formatters_lookup, Hs. by eexists.
Qed.

Lemma _format_record_identity_witness :
  _format_record [("id", VInt 7); ("val", VStr "x")]
    (_create_formatters
       (stream_with_schema
          {[ "id" := MkFieldSchema ["integer"] None;
             "val" := MkFieldSchema ["string"; "null"] None ]}))
  = Ok [("id", VInt 7); ("val", VStr "x")].
Proof.
  apply (_format_record_identity
           (stream_with_schema
              {[ "id" := MkFieldSchema ["integer"] None;
                 "val" := MkFieldSchema ["string"; "null"] None ]})
           [("id", VInt 7); ("val", VStr "x")]).
  - repeat constructor; vm_compute; eauto.
  - repeat constructor; discriminate.
  - repeat constructor; intros s Hs; vm_compute in Hs; injection Hs as <-;
      intros [Hf _]; discriminate Hf.
Defined.

(** C10: [_format_record] returns a record, with the fields of its input,
    exactly when every field of the input has a specification in the
    stream's schema; on any other input it raises [KeyError] for a field of
    the row that the schema lacks. *)
Theorem _format_record_needs_schema_fields (self : IcebergTableStream) (record : Record_) :
  (Forall (fun k => is_Some (schema self !! k)) (keys record) ->
     exists out, _format_record record (_create_formatters self) = Ok out
                 /\ keys out = keys record)
  /\ (~ Forall (fun k => is_Some (schema self !! k)) (keys record) ->
        exists k, k ∈ keys record /\ schema self !! k = None
                  /\ _format_record record (_create_formatters self) = Raise (KeyError k)).
Proof.
  assert (Hiff : forall k, is_Some (_create_formatters self !! k)
                           <-> is_Some (schema self !! k)).
  { intros k. rewrite _create_formatters_lookup. apply fmap_is_Some. }
  split.
  - intros Hall.
    assert (Hall' : Forall (fun k => is_Some (_create_formatters self !! k)) (keys record)).
    { eapply Forall_impl; [exact Hall|]. intros k. apply Hiff. }
    eexists. split; [by apply _format_record_ok|].
    eapply keys_format_record. by apply _format_record_ok.
  - intros Hnot.
    destruct (_format_record_raises record (_create_formatters self)) as (k & Hin & Hk & Hr).
    { intros Hall. apply Hnot. eapply Forall_impl; [exact Hall|]. intros k. apply Hiff. }
    exists k. split; [done|]. split; [|done].
    rewrite _create_formatters_lookup in Hk.
    by destruct (schema self !! k).
Qed.

Lemma _format_record_needs_schema_fields_witness :
  exists k, k ∈ keys [("id", VInt 7); ("extra", VStr "x")]
    /\ schema (stream_with_schema {[ "id" := MkFieldSchema ["integer"] None ]}) !! k = None
    /\ _format_record [("id", VInt 7); ("extra", VStr "x")]
         (_create_formatters
            (stream_with_schema {[ "id" := MkFieldSchema ["integer"] None ]}))
       = Raise (KeyError k).
Proof.
  apply (proj2 (_format_record_needs_schema_fields
                  (stream_with_schema {[ "id" := MkFieldSchema ["integer"] None ]})
                  [("id", VInt 7); ("extra", VStr "x")])).
  intros Hall. apply Forall_cons in Hall as [_ Hall].
  apply Forall_cons in Hall as [[s Hs] _].
  vm_compute in Hs. discriminate Hs.
Defined.

(** ** The per-batch sort *)

Lemma lex_leb_total (xs ys : list Z) : lex_leb xs ys = true \/ lex_leb ys xs = true.
Proof.
  revert ys. induction xs as [|x xs IH]; intros [|y ys]; simpl; auto.
  destruct (Z.ltb_spec x y), (Z.ltb_spec y x), (Z.eqb_spec x y), (Z.eqb_spec y x);
    simpl; auto; lia.
Qed.

Lemma lex_leb_trans (xs ys zs : list Z) :
  lex_leb xs ys = true -> lex_leb ys zs = true -> lex_leb xs zs = true.
Proof.
  revert ys zs. induction xs as [|x xs IH]; intros [|y ys] [|z zs]; simpl; try done.
  rewrite !orb_true_iff, !andb_true_iff, !Z.ltb_lt, !Z.eqb_eq.
  intros [Hxy|[-> Hxs]] [Hyz|[-> Hys]].
  - left. lia.
  - by left.
  - by left.
  - right. split; [done|]. by apply (IH ys).
Qed.

#[global] Instance row_le_total (i : nat) : Total (row_le i).
Proof. intros r1 r2. apply lex_leb_total. Qed.

#[global] Instance row_le_trans (i : nat) : Transitive (row_le i).
Proof. intros r1 r2 r3. apply lex_leb_trans. Qed.

Lemma insert_row_Permutation (i : nat) (row : list Value) (rows : list (list Value)) :
  insert_row i row rows ≡ₚ row :: rows.
Proof.
  induction rows as [|r rows IH]; simpl; [done|].
  destruct (value_leb (cell i row) (cell i r)); [done|].
  by rewrite IH, Permutation_swap.
Qed.

Lemma sort_rows_Permutation (i : nat) (rows : list (list Value)) :
  sort_rows i rows ≡ₚ rows.
Proof.
  induction rows as [|r rows IH]; simpl; [done|].
  by rewrite insert_row_Permutation, IH.
Qed.

Lemma insert_row_sorted (i : nat) (row : list Value) (rows : list (list Value)) :
  StronglySorted (row_le i) rows -> StronglySorted (row_le i) (insert_row i row rows).
Proof.
  induction 1 as [|r rows Hs IH Hall]; simpl.
  - repeat constructor.
  - destruct (value_leb (cell i row) (cell i r)) eqn:Hle.
    + constructor; [by constructor|].
      constructor; [done|].
      eapply Forall_impl; [exact Hall|].
      intros r' Hr'. by apply (row_le_trans i row r r').
    + constructor; [done|].
      rewrite insert_row_Permutation. constructor; [|done].
      destruct (row_le_total i row r) as [Hrow|Hrow]; [|done].
      unfold row_le in Hrow. congruence.
Qed.

Lemma sort_rows_sorted (i : nat) (rows : list (list Value)) :
  StronglySorted (row_le i) (sort_rows i rows).
Proof.
  induction rows as [|r rows IH]; simpl; [constructor|]. by apply insert_row_sorted.
Qed.

Lemma column_index_is_Some (name : string) (names : list string) :
  name ∈ names -> is_Some (column_index name names).
Proof.
  induction names as [|n names IH]; intros Hin; [by apply elem_of_nil in Hin|].
  simpl. destruct (String.eqb_spec n name) as [->|Hne]; [by eexists|].
  apply elem_of_cons in Hin as [->|Hin]; [done|].
  destruct (IH Hin) as [i ->]. by eexists.
Qed.

Lemma sort_by_sorted_copy (b : RecordBatch) (sort_key : string) :
  sort_key ∈ column_names b ->
  exists b', sort_by b sort_key = Ok b' /\ sorted_copy_of sort_key b b'.
Proof.
  intros Hin. destruct (column_index_is_Some _ _ Hin) as [i Hi].
  unfold sort_by. rewrite Hi. eexists. split; [done|].
  exists i. simpl. split; [done|]. split; [done|]. split.
  - apply sort_rows_Permutation.
  - apply sort_rows_sorted.
Qed.

(** C3: over a finite sequence of batches that all have the sort column,
    [_create_sorted_batch_reader] yields one batch per input batch, in the
    input's order, each the sorted copy of its input batch, and raises
    nothing. Across batches no order is established: on the two batches
    with keys (3, 1) and (2, 0) the rows come out as 1, 3, 0, 2. *)
Theorem _create_sorted_batch_reader_sorts_each_batch :
  (forall (reader : list RecordBatch) (sort_key : string),
     Forall (fun b => sort_key ∈ column_names b) reader ->
     exists out,
       _create_sorted_batch_reader reader sort_key = MkRun out None
       /\ length out = length reader
       /\ Forall2 (sorted_copy_of sort_key) reader out)
  /\ (exists (reader out : list RecordBatch),
        _create_sorted_batch_reader reader "ts" = MkRun out None
        /\ ~ Sorted (row_le 0) (concat (batch_rows <$> out))).
Proof.
  split.
  - intros reader sort_key Hall.
    induction reader as [|b reader IH].
    + exists []. repeat split; constructor.
    + inversion Hall as [|? ? Hb Hall']; subst.
      destruct (IH Hall') as (out & Hrun & Hlen & Hrel).
      destruct (sort_by_sorted_copy b sort_key Hb) as (b' & Hsort & Hcopy).
      exists (b' :: out).
      unfold _create_sorted_batch_reader in *. simpl.
      rewrite Hsort, Hrun. simpl.
      split; [done|]. split; [by rewrite Hlen|]. by constructor.
  - exists [Batch ["ts"] [[VInt 3]; [VInt 1]]; Batch ["ts"] [[VInt 2]; [VInt 0]]].
    eexists. split; [reflexivity|]. simpl.
    intros Hs.
    inversion Hs as [|? ? Hs1 _]; subst.
    inversion Hs1 as [|? ? _ Hhd]; subst.
    inversion Hhd as [|? ? Hle]; subst.
    vm_compute in Hle. discriminate Hle.
Qed.

Lemma _create_sorted_batch_reader_sorts_each_batch_witness :
  exists out,
    _create_sorted_batch_reader
      [Batch ["id"; "ts"] [[VInt 1; VInt 30]; [VInt 2; VInt 10]; [VInt 3; VInt 20]];
       Batch ["id"; "ts"] [[VInt 4; VInt 25]; [VInt 5; VInt 5]; [VInt 6; VInt 15]];
       Batch ["id"; "ts"] [[VInt 7; VInt 9]; [VInt 8; VInt 8]; [VInt 9; VInt 7]]]
      "ts" = MkRun out None
    /\ length out = 3%nat
    /\ Forall2 (sorted_copy_of "ts")
         [Batch ["id"; "ts"] [[VInt 1; VInt 30]; [VInt 2; VInt 10]; [VInt 3; VInt 20]];
          Batch ["id"; "ts"] [[VInt 4; VInt 25]; [VInt 5; VInt 5]; [VInt 6; VInt 15]];
          Batch ["id"; "ts"] [[VInt 7; VInt 9]; [VInt 8; VInt 8]; [VInt 9; VInt 7]]]
         out.
Proof.
  apply (proj1 _create_sorted_batch_reader_sorts_each_batch).
  repeat constructor.
Defined.

Example sorted_batch_reader_three_batches :
  _create_sorted_batch_reader
    [Batch ["id"; "ts"] [[VInt 1; VInt 30]; [VInt 2; VInt 10]; [VInt 3; VInt 20]];
     Batch ["id"; "ts"] [[VInt 4; VInt 25]; [VInt 5; VInt 5]; [VInt 6; VInt 15]];
     Batch ["id"; "ts"] [[VInt 7; VInt 9]; [VInt 8; VInt 8]; [VInt 9; VInt 7]]]
    "ts"
  = MkRun
      [Batch ["id"; "ts"] [[VInt 2; VInt 10]; [VInt 3; VInt 20]; [VInt 1; VInt 30]];
       Batch ["id"; "ts"] [[VInt 5; VInt 5]; [VInt 6; VInt 15]; [VInt 4; VInt 25]];
       Batch ["id"; "ts"] [[VInt 9; VInt 7]; [VInt 8; VInt 8]; [VInt 7; VInt 9]]]
      None.
Proof. reflexivity. Qed.

(** ** The cursor text is canonical *)

Lemma digit_of_digit_char (n : Z) : digit_of (digit_char n) = Some (n mod 10).
Proof.
  assert (H : 0 <= n mod 10 < 10) by (apply Z.mod_pos_bound; lia).
  unfold digit_of, digit_char.
  rewrite nat_ascii_embedding by lia.
  replace (Z.of_nat (48 + Z.to_nat (n mod 10))) with (48 + n mod 10) by lia.
  destruct (Z.leb_spec 48 (48 + n mod 10)); [|lia].
  destruct (Z.leb_spec (48 + n mod 10) 57); [|lia].
  simpl. f_equal. lia.
Qed.

Lemma digit_char_not_sign (n : Z) :
  Ascii.eqb (digit_char n) "+" = false /\ Ascii.eqb (digit_char n) "-" = false.
Proof.
  assert (H : 0 <= n mod 10 < 10) by (apply Z.mod_pos_bound; lia).
  unfold digit_char.
  assert (Hc : n mod 10 = 0 \/ n mod 10 = 1 \/ n mod 10 = 2 \/ n mod 10 = 3 \/ n mod 10 = 4
               \/ n mod 10 = 5 \/ n mod 10 = 6 \/ n mod 10 = 7 \/ n mod 10 = 8 \/ n mod 10 = 9)
    by lia.
  destruct Hc as [->|[->|[->|[->|[->|[->|[->|[->|[->| ->]]]]]]]]]; by split.
Qed.

Lemma two_digits (n : Z) :
  0 <= n < 100 -> 10 * (10 * 0 + (n / 10) mod 10) + n mod 10 = n.
Proof. intros H. Z.div_mod_to_equations. lia. Qed.

Lemma four_digits (n : Z) :
  0 <= n < 10000 ->
  10 * (10 * (10 * (10 * 0 + (((n / 10) / 10) / 10) mod 10)
              + ((n / 10) / 10) mod 10)
        + (n / 10) mod 10)
  + n mod 10 = n.
Proof. intros H. Z.div_mod_to_equations. lia. Qed.

Lemma six_digits (n : Z) :
  0 <= n < 1000000 ->
  10 * (10 * (10 * (10 * (10 * (10 * 0 + (((((n / 10) / 10) / 10) / 10) / 10) mod 10)
                          + ((((n / 10) / 10) / 10) / 10) mod 10)
                    + (((n / 10) / 10) / 10) mod 10)
              + ((n / 10) / 10) mod 10)
        + (n / 10) mod 10)
  + n mod 10 = n.
Proof. intros H. Z.div_mod_to_equations. lia. Qed.

(** One round of running the parser on a text whose digits are symbolic:
    unfold, read the digits, decide the comparisons of literal characters. *)
Ltac parser_step :=
  cbv -[digit_char digit_of Z.div Z.modulo Z.eqb Z.mul Z.add Z.leb Z.ltb Z.sub
        valid_date valid_time Ascii.eqb andb];
  rewrite ?digit_of_digit_char,
          ?(fun n => proj1 (digit_char_not_sign n)),
          ?(fun n => proj2 (digit_char_not_sign n));
  repeat match goal with
         | |- context [Ascii.eqb (Ascii ?a ?b ?c ?d ?e ?f ?g ?h)
                                 (Ascii ?a' ?b' ?c' ?d' ?e' ?f' ?g' ?h')] =>
             let r := eval vm_compute in
               (Ascii.eqb (Ascii a b c d e f g h) (Ascii a' b' c' d' e' f' g' h')) in
             change (Ascii.eqb (Ascii a b c d e f g h) (Ascii a' b' c' d' e' f' g' h'))
               with r
         end.

Lemma valid_fields_bounds (y m d h mi s us : Z) :
  valid_date y m d = true -> valid_time h mi s us = true ->
  (1 <= y <= 9999 /\ 1 <= m <= 12 /\ 1 <= d <= 31)
  /\ 0 <= h < 24 /\ 0 <= mi < 60 /\ 0 <= s < 60 /\ 0 <= us < 1000000.
Proof.
  unfold valid_date, valid_time, days_in_month. intros Hd Ht.
  repeat (apply andb_true_iff in Hd as [Hd ?]).
  repeat (apply andb_true_iff in Ht as [Ht ?]).
  repeat match goal with
         | H : (_ <=? _) = true |- _ => apply Z.leb_le in H
         | H : (_ <? _) = true |- _ => apply Z.ltb_lt in H
         end.
  repeat match goal with
         | H : context [if ?b then _ else _] |- _ => destruct b
         end; lia.
Qed.

(** The ISO text of a valid datetime without its offset parses back to that
    datetime, naive. *)
Lemma parse_isoformat_naive_isoformat (dt : datetime) :
  valid_date (year dt) (month dt) (day dt) = true ->
  valid_time (hour dt) (minute dt) (second dt) (microsecond dt) = true ->
  parse_isoformat (naive_isoformat dt) = Some (replace_tzinfo_None dt).
Proof.
  destruct dt as [y m d h mi s us tz]. simpl. intros Hd Ht.
  destruct (valid_fields_bounds _ _ _ _ _ _ _ Hd Ht)
    as ((Hy & Hm & Hdd) & Hh & Hmi & Hs & Hu).
  unfold naive_isoformat. simpl.
  destruct (us =? 0) eqn:Hus.
  - apply Z.eqb_eq in Hus. subst us.
    do 6 parser_step.
    rewrite (four_digits y), !two_digits by lia.
    cbn [andb]. by rewrite Hd, Ht.
  - do 8 parser_step.
    rewrite (four_digits y), !two_digits, (six_digits us) by lia.
    cbn [andb]. by rewrite Hd, Ht.
Qed.

(** What [parse_isoformat] returns is a valid datetime. *)
Lemma parse_isoformat_valid (s : string) (dt : datetime) :
  parse_isoformat s = Some dt ->
  valid_date (year dt) (month dt) (day dt) = true
  /\ valid_time (hour dt) (minute dt) (second dt) (microsecond dt) = true.
Proof.
  unfold parse_isoformat.
  destruct (parse_isoformat_date _) as [[[y m] d]|]; [|done].
  destruct (if (length _ =? 10)%nat then _ else _) as [[[[[h mi] sec] us] tz]|]; [|done].
  destruct (valid_date y m d) eqn:Hd; [|done].
  destruct (valid_time h mi sec us) eqn:Ht; [|done].
  by intros [= <-].
Qed.

(** ** [get_records] *)

Lemma get_records_unfold host (self : IcebergTableStream) (context : Context) :
  get_records host self context
  = match filter_expression host self context with
    | Raise e => fail e
    | Ok row_filter => format_batches self (batch_reader self row_filter)
    end.
Proof. reflexivity. Qed.

Lemma replication_key_attribute (self : IcebergTableStream) (k : string) :
  replication_key self = Some k -> _replication_key self = Some k.
Proof.
  unfold replication_key. destruct (_replication_key self) as [k'|]; [|done].
  destruct (String.eqb k' ""); [done|]. by intros [= ->].
Qed.

Lemma append_empty_r (s : string) : s +:+ "" = s.
Proof.
  induction s as [|c s IH]; [done|].
  change (String c (s +:+ "") = String c s). by rewrite IH.
Qed.

(** What [get_records] embeds for a text cursor is the ISO form of a naive
    datetime: the parsed value's date and clock, and no offset. *)
Lemma reencoded_cursor_is_naive (dt : datetime) :
  tzinfo (replace_tzinfo_None dt) = None
  /\ datetime_isoformat (replace_tzinfo_None dt) = naive_isoformat dt.
Proof.
  split; [done|]. unfold datetime_isoformat, replace_tzinfo_None. cbn [tzinfo].
  rewrite append_empty_r. by destruct dt.
Qed.

Example init_infers_key_from_single_sort_field :
  option_map replication_key
    (match __init__ example_schema "example" table_sorted_on_id with
     | Ok self => Some self
     | Raise _ => None
     end)
  = Some (Some "id").
Proof. reflexivity. Qed.

(** A stream as [__init__] leaves it never sorts: it has a replication key
    only when the table has a sort order. *)
Lemma init_stream_passes_through gen (nm : string) (t : IcebergTable)
    (self : IcebergTableStream) (row_filter : Expression) :
  __init__ gen nm t = Ok self ->
  batch_reader self row_filter = of_list (scan (_iceberg_table self) row_filter).
Proof.
  unfold __init__, batch_reader, replication_key, is_sorted, is_unsorted.
  destruct (sort_order_fields t) as [|sf [|sf' sfs]] eqn:Hso; simpl.
  - by intros [= <-].
  - destruct (find_field t (source_id sf)); [|done].
    intros [= <-]. simpl. rewrite Hso. simpl.
    by destruct (String.eqb _ _).
  - by intros [= <-].
Qed.

(** C1, as the code has it: the batches are sorted one by one on the
    replication key exactly when a replication key is set and the table
    declares no sort order at all; with no key, or with any sort order, the
    reader of the scan is used as it is. In particular it is used as it is
    when the table is sorted on the key. *)
Theorem batch_reader_sorts_iff_key_set_and_table_unsorted
    (self : IcebergTableStream) (row_filter : Expression) :
  (forall key, replication_key self = Some key ->
               sort_order_fields (_iceberg_table self) = [] ->
               batch_reader self row_filter
               = _create_sorted_batch_reader (scan (_iceberg_table self) row_filter) key)
  /\ (replication_key self = None \/ sort_order_fields (_iceberg_table self) <> [] ->
        batch_reader self row_filter = of_list (scan (_iceberg_table self) row_filter))
  /\ (forall key, replication_key self = Some key -> table_sorted_on self key ->
                  batch_reader self row_filter
                  = of_list (scan (_iceberg_table self) row_filter)).
Proof.
  assert (Hpass : replication_key self = None
                  \/ sort_order_fields (_iceberg_table self) <> [] ->
                  batch_reader self row_filter
                  = of_list (scan (_iceberg_table self) row_filter)).
  { unfold batch_reader, is_sorted, is_unsorted.
    intros [->|Hne]; [done|].
    destruct (replication_key self); [|done].
    by destruct (sort_order_fields (_iceberg_table self)). }
  split; [|split; [exact Hpass|]].
  - intros key Hk Hso. unfold batch_reader, is_sorted, is_unsorted.
    by rewrite Hk, Hso.
  - intros key _ Hon. apply Hpass. right. intros Hso.
    unfold table_sorted_on, leading_sort_field in Hon. by rewrite Hso in Hon.
Qed.

Lemma batch_reader_sorts_iff_key_set_and_table_unsorted_witness :
  batch_reader (example_stream unsorted_table (Some "ts")) AlwaysTrue
  = _create_sorted_batch_reader
      (scan (_iceberg_table (example_stream unsorted_table (Some "ts"))) AlwaysTrue) "ts".
Proof.
  apply (proj1 (batch_reader_sorts_iff_key_set_and_table_unsorted
                  (example_stream unsorted_table (Some "ts")) AlwaysTrue) "ts");
    reflexivity.
Defined.

(** C1, as stated, fails: on a table sorted on [id] whose stream has the
    replication key [ts], the key is set and the table is not sorted on it,
    and the batches are not sorted on [ts]. *)
Lemma sorted_table_with_other_key_is_not_sorted :
  ~ (forall (self : IcebergTableStream) (row_filter : Expression) (key : string),
       replication_key self = Some key ->
       ~ table_sorted_on self key ->
       batch_reader self row_filter
       = _create_sorted_batch_reader (scan (_iceberg_table self) row_filter) key).
Proof.
  intros H.
  specialize (H (example_stream table_sorted_on_id (Some "ts")) AlwaysTrue "ts").
  assert (Hne : batch_reader (example_stream table_sorted_on_id (Some "ts")) AlwaysTrue
                <> _create_sorted_batch_reader
                     (scan (_iceberg_table (example_stream table_sorted_on_id (Some "ts")))
                        AlwaysTrue) "ts").
  { vm_compute. discriminate. }
  apply Hne, H; [reflexivity|].
  vm_compute. discriminate.
Qed.

(** The scan of a filter that was built. *)
Lemma get_records_of_filter host (self : IcebergTableStream) (context : Context)
    (row_filter : Expression) :
  filter_expression host self context = Ok row_filter ->
  get_records host self context = format_batches self (batch_reader self row_filter).
Proof. intros Hf. by rewrite get_records_unfold, Hf. Qed.

Lemma new_GreaterThan_accepted host (term : option string) (literal : Value) :
  greater_than_error host term literal = None ->
  new_GreaterThan host term literal = Ok (GreaterThan term literal).
Proof. intros Hacc. unfold new_GreaterThan. by rewrite Hacc. Qed.

Lemma new_GreaterThan_Ok host (term : option string) (literal : Value)
    (row_filter : Expression) :
  new_GreaterThan host term literal = Ok row_filter ->
  row_filter = GreaterThan term literal.
Proof.
  unfold new_GreaterThan. destruct (greater_than_error host term literal); [done|].
  by intros [= <-].
Qed.

(** C2, as the code has it: for a stream with a replication key and a
    resolved cursor value that is truthy (present, and not zero, [False] or
    empty), the only filter [get_records] scans with is a greater-than
    predicate on the replication key; where [GreaterThan] accepts the
    arguments, it is the predicate on the value itself when the value is not
    a string, and, when the value is a string that [fromisoformat] parses,
    on the ISO text of the parsed value with its [tzinfo] removed. It scans
    with no other filter: what stops it otherwise is the exception of the
    parser or of [GreaterThan]. *)
Theorem truthy_cursor_gives_greater_than host (self : IcebergTableStream)
    (context : Context) (key : string) :
  replication_key self = Some key ->
  truthy (get_starting_replication_key_value host self context) = true ->
  (forall row_filter,
     filter_expression host self context = Ok row_filter ->
     (is_str (get_starting_replication_key_value host self context) = false
      /\ row_filter
         = GreaterThan (Some key) (get_starting_replication_key_value host self context))
     \/ (exists s dt,
           get_starting_replication_key_value host self context = VStr s
           /\ fromisoformat host s = Ok dt
           /\ row_filter
              = GreaterThan (Some key)
                  (VStr (datetime_isoformat (replace_tzinfo_None dt)))))
  /\ (is_str (get_starting_replication_key_value host self context) = false ->
      greater_than_error host (Some key)
        (get_starting_replication_key_value host self context) = None ->
      filter_expression host self context
      = Ok (GreaterThan (Some key) (get_starting_replication_key_value host self context))
      /\ get_records host self context
         = format_batches self
             (batch_reader self
                (GreaterThan (Some key)
                   (get_starting_replication_key_value host self context))))
  /\ (forall s dt,
        get_starting_replication_key_value host self context = VStr s ->
        fromisoformat host s = Ok dt ->
        greater_than_error host (Some key)
          (VStr (datetime_isoformat (replace_tzinfo_None dt))) = None ->
        filter_expression host self context
        = Ok (GreaterThan (Some key) (VStr (datetime_isoformat (replace_tzinfo_None dt))))
        /\ get_records host self context
           = format_batches self
               (batch_reader self
                  (GreaterThan (Some key)
                     (VStr (datetime_isoformat (replace_tzinfo_None dt)))))
        /\ tzinfo (replace_tzinfo_None dt) = None
        /\ datetime_isoformat (replace_tzinfo_None dt) = naive_isoformat dt).
Proof.
  intros Hk Ht. split; [|split].
  - intros row_filter. unfold filter_expression. rewrite Ht, Hk.
    destruct (get_starting_replication_key_value host self context) as [| | |s| | |];
      try (intros Hf; apply new_GreaterThan_Ok in Hf; by left).
    destruct (fromisoformat host s) as [dt|] eqn:Hp; [|done].
    intros Hf. apply new_GreaterThan_Ok in Hf. right. by exists s, dt.
  - intros Hs Hacc.
    assert (Hf : filter_expression host self context
                 = Ok (GreaterThan (Some key)
                         (get_starting_replication_key_value host self context))).
    { unfold filter_expression. rewrite Ht, Hk.
      destruct (get_starting_replication_key_value host self context);
        try done; by apply new_GreaterThan_accepted. }
    split; [done|]. by apply get_records_of_filter.
  - intros s dt Hv Hp Hacc.
    assert (Hf : filter_expression host self context
                 = Ok (GreaterThan (Some key)
                         (VStr (datetime_isoformat (replace_tzinfo_None dt))))).
    { unfold filter_expression. rewrite Ht, Hk, Hv, Hp.
      by apply new_GreaterThan_accepted. }
    split; [done|]. split; [by apply get_records_of_filter|].
    apply reencoded_cursor_is_naive.
Qed.

Lemma truthy_cursor_gives_greater_than_witness :
  filter_expression (host_resolving (VStr "2023-01-01T00:00:00+02:00"))
    (example_stream unsorted_table (Some "ts")) None
  = Ok (GreaterThan (Some "ts") (VStr "2023-01-01T00:00:00")).
Proof.
  refine (proj1 (proj2 (proj2 (truthy_cursor_gives_greater_than
                                 (host_resolving (VStr "2023-01-01T00:00:00+02:00"))
                                 (example_stream unsorted_table (Some "ts")) None "ts"
                                 _ _))
                   "2023-01-01T00:00:00+02:00"
                   (Datetime 2023 1 1 0 0 0 0 (Some 7200000000)) _ _ _));
    reflexivity.
Defined.

(** C2, as stated, fails: the cursor value 0 of an integer replication key
    is present, and the scan is unconditional, with a [GreaterThan] that
    accepts every argument. *)
Lemma zero_cursor_gives_no_predicate :
  ~ (forall host (self : IcebergTableStream) (context : Context) (key : string),
       replication_key self = Some key ->
       get_starting_replication_key_value host self context <> VNone ->
       (forall literal, greater_than_error host (Some key) literal = None) ->
       (forall s, get_starting_replication_key_value host self context = VStr s ->
                  exists dt, fromisoformat host s = Ok dt) ->
       exists literal,
         filter_expression host self context = Ok (GreaterThan (Some key) literal)).
Proof.
  intros H.
  destruct (H (host_resolving (VInt 0)) (example_stream table_sorted_on_id (Some "id"))
              None "id") as [literal Hf];
    [reflexivity|discriminate|done|discriminate|].
  vm_compute in Hf. discriminate Hf.
Qed.



(** C5: when the resolved cursor value is a string on which the parse is
    attempted (a truthy, that is non-empty, string) and [fromisoformat]
    raises on it, [get_records] raises that exception before it yields any
    record; it does not scan. *)
Theorem unparseable_cursor_raises host (self : IcebergTableStream) (context : Context)
    (s : string) (e : Error) :
  get_starting_replication_key_value host self context = VStr s ->
  truthy (VStr s) = true ->
  fromisoformat host s = Raise e ->
  filter_expression host self context = Raise e
  /\ get_records host self context = MkRun [] (Some e).
Proof.
  intros Hv Ht Hp.
  assert (Hf : filter_expression host self context = Raise e).
  { unfold filter_expression. by rewrite Hv, Ht, Hp. }
  split; [done|]. by rewrite get_records_unfold, Hf.
Qed.

Lemma unparseable_cursor_raises_witness :
  filter_expression (host_resolving (VStr "yesterday"))
    (example_stream unsorted_table (Some "ts")) None
  = Raise (ValueError "Invalid isoformat string: 'yesterday'")
  /\ get_records (host_resolving (VStr "yesterday"))
       (example_stream unsorted_table (Some "ts")) None
     = MkRun [] (Some (ValueError "Invalid isoformat string: 'yesterday'")).
Proof.
  apply (unparseable_cursor_raises (host_resolving (VStr "yesterday"))
           (example_stream unsorted_table (Some "ts")) None "yesterday");
    reflexivity.
Defined.

(** An empty text is no cursor: no parse is attempted on it, and the scan
    is the one of the first sync. *)
Example empty_text_cursor_is_no_cursor :
  get_records (host_resolving (VStr "")) (example_stream unsorted_table (Some "ts")) None
  = get_records (host_resolving VNone) (example_stream unsorted_table (Some "ts")) None.
Proof. reflexivity. Qed.

(** The end-to-end example of the specification: no sort order, the
    replication key [ts], the cursor "2023-01-01T00:00:00". *)
Example get_records_end_to_end :
  get_records (host_resolving (VStr "2023-01-01T00:00:00"))
    (example_stream unsorted_table (Some "ts")) None
  = MkRun
      [[("id", VInt 2); ("ts", VStr "2023-01-02"); ("val", VNone)];
       [("id", VInt 1); ("ts", VStr "2023-01-05"); ("val", VStr "a")]]
      None.
Proof. reflexivity. Qed.

Example get_records_first_sync :
  get_records (host_resolving VNone) (example_stream table_sorted_on_id None) None
  = MkRun
      [[("id", VInt 1); ("ts", VStr "2023-01-05"); ("val", VStr "a")];
       [("id", VInt 2); ("ts", VStr "2023-01-02"); ("val", VNone)];
       [("id", VInt 3); ("ts", VStr "2023-01-01"); ("val", VStr "c")]]
      None.
Proof. reflexivity. Qed.

(** * Further properties *)

(** ** [_format_date] *)

Lemma length_slice_to (n : nat) (s : string) : (String.length (slice_to n s) <= n)%nat.
Proof.
  unfold slice_to. revert s. induction n as [|n IH]; intros [|c s]; simpl; try lia.
  specialize (IH s). lia.
Qed.

Lemma slice_to_slice_to (n : nat) (s : string) : slice_to n (slice_to n s) = slice_to n s.
Proof.
  unfold slice_to. revert s. induction n as [|n IH]; intros [|c s]; simpl; try done.
  by rewrite IH.
Qed.

Lemma slice_to_datetime_isoformat (dt : datetime) :
  slice_to 10 (datetime_isoformat dt)
  = date_isoformat (Date (year dt) (month dt) (day dt)).
Proof. destruct dt. reflexivity. Qed.

Lemma slice_to_date_isoformat (d : date) : slice_to 10 (date_isoformat d) = date_isoformat d.
Proof. destruct d. reflexivity. Qed.

(** X5: [_format_date] reduces a datetime to its calendar date: the result
    is the ISO text of the date with the same year, month and day, whatever
    the time of day and the offset; a date gives its own ISO text. *)
Theorem _format_date_keeps_calendar_date (dt : datetime) (d : date) :
  _format_date (VDatetime dt) = VStr (date_isoformat (Date (year dt) (month dt) (day dt)))
  /\ _format_date (VDatetime dt) = _format_date (VDate (Date (year dt) (month dt) (day dt)))
  /\ _format_date (VDate d) = VStr (date_isoformat d).
Proof.
  simpl. rewrite slice_to_datetime_isoformat, !slice_to_date_isoformat. done.
Qed.

(** X6: [_format_date] is idempotent: formatting a value it has already
    formatted changes nothing. *)
Theorem _format_date_idempotent (value : Value) :
  _format_date (_format_date value) = _format_date value.
Proof.
  destruct value; simpl; try done; by rewrite slice_to_slice_to.
Qed.

(** X7: the result of [_format_date] is [None] or a text of at most ten
    characters; it is never a date, a number or any other object. *)
Theorem _format_date_result_shape (value : Value) :
  _format_date value = VNone
  \/ exists s, _format_date value = VStr s /\ (String.length s <= 10)%nat.
Proof.
  destruct value; simpl; auto; right; eexists; (split; [done|]); apply length_slice_to.
Qed.

(** ** [_create_formatters] with [_format_record] *)

Lemma formatter_of_None (s : FieldSchema) : formatter_of s VNone = VNone.
Proof.
  unfold formatter_of.
  destruct (bool_decide (format s = Some "date") && _); [done|].
  by destruct (bool_decide ("null" ∈ type s)).
Qed.

Lemma formatter_of_truncates (self : IcebergTableStream) (k : string) (s : FieldSchema)
    (v : Value) :
  schema self !! k = Some s ->
  formatter_of s v = if truncates self k then _format_date v else v.
Proof.
  intros Hs. unfold truncates. rewrite Hs. unfold formatter_of.
  destruct (bool_decide (format s = Some "date") && _); [done|].
  destruct (bool_decide ("null" ∈ type s)); [|done]. by destruct v.
Qed.

Lemma formatter_of_idempotent (s : FieldSchema) (v : Value) :
  formatter_of s (formatter_of s v) = formatter_of s v.
Proof.
  unfold formatter_of.
  destruct (bool_decide (format s = Some "date") && _).
  - destruct v; simpl; try done; by rewrite slice_to_slice_to.
  - destruct (bool_decide ("null" ∈ type s)); [|done]. by destruct v.
Qed.

(** A successful [_format_record] with the stream's formatters applies the
    rule of each field's specification, field by field. *)
Lemma _format_record_created (self : IcebergTableStream) (record out : Record_) :
  _format_record record (_create_formatters self) = Ok out ->
  Forall2 (fun kv kv' => exists s, schema self !! kv.1 = Some s
                                   /\ kv' = (kv.1, formatter_of s kv.2))
          record out.
Proof.
  revert out. induction record as [|[k v] record IH]; intros out; simpl.
  - intros [= <-]. constructor.
  - rewrite _create_formatters_lookup.
    destruct (schema self !! k) as [s|] eqn:Hs; simpl; [|done].
    destruct (_format_record record (_create_formatters self)) as [out'|]; [|done].
    intros [= <-]. constructor; [|by apply IH].
    exists s. simpl. by rewrite Hs.
Qed.

Lemma format_expected (self : IcebergTableStream) (record : Record_) :
  Forall (fun k => is_Some (schema self !! k)) (keys record) ->
  _format_record record (_create_formatters self) = Ok (expected_record self record).
Proof.
  intros Hall. rewrite _format_record_ok.
  - f_equal. unfold expected_record, keys in *.
    induction record as [|[k v] record IH]; simpl in *; [done|].
    inversion Hall as [|? ? [s Hs] Hall']; subst.
    rewrite IH by done. f_equal. f_equal.
    rewrite _create_formatters_lookup, Hs. simpl.
    by apply formatter_of_truncates.
  - eapply Forall_impl; [exact Hall|].
    intros k [s Hs]. rewrite _create_formatters_lookup, Hs. by eexists.
Qed.

Lemma format_unknown_field (self : IcebergTableStream) (record : Record_) :
  ~ Forall (fun k => is_Some (schema self !! k)) (keys record) ->
  exists k, k ∈ keys record /\ schema self !! k = None
            /\ _format_record record (_create_formatters self) = Raise (KeyError k).
Proof.
  intros Hnot.
  destruct (_format_record_raises record (_create_formatters self)) as (k & Hin & Hk & Hr).
  { intros Hall. apply Hnot. eapply Forall_impl; [exact Hall|].
    intros k Hk. simpl in Hk. rewrite _create_formatters_lookup in Hk.
    by apply fmap_is_Some in Hk. }
  exists k. split; [done|]. split; [|done].
  rewrite _create_formatters_lookup in Hk. by destruct (schema self !! k).
Qed.

(** X8: whenever every field of the record has a specification,
    [_format_record] with the stream's formatters returns the record with
    its nullable date fields passed through [_format_date] and every other
    field unchanged, in the same order. *)
Theorem _format_record_truncates_date_fields_only (self : IcebergTableStream)
    (record : Record_) :
  Forall (fun k => is_Some (schema self !! k)) (keys record) ->
  _format_record record (_create_formatters self) = Ok (expected_record self record).
Proof. apply format_expected. Qed.

Lemma _format_record_truncates_date_fields_only_witness :
  _format_record [("id", VInt 1); ("ts", VDate (Date 2023 1 5)); ("val", VNone)]
    (_create_formatters (example_stream unsorted_table None))
  = Ok (expected_record (example_stream unsorted_table None)
          [("id", VInt 1); ("ts", VDate (Date 2023 1 5)); ("val", VNone)]).
Proof.
  apply (_format_record_truncates_date_fields_only (example_stream unsorted_table None)).
  repeat constructor; vm_compute; eauto.
Defined.

(** X9: formatting never turns a missing value into a value: in a record
    that [_format_record] returns, every field that held [None] in the input
    holds [None]. *)
Theorem _format_record_keeps_None (self : IcebergTableStream) (record out : Record_) :
  _format_record record (_create_formatters self) = Ok out ->
  Forall2 (fun kv kv' => kv'.1 = kv.1 /\ (kv.2 = VNone -> kv'.2 = VNone)) record out.
Proof.
  intros Hok. eapply Forall2_impl; [by apply _format_record_created|].
  intros [k v] [k' v'] (s & Hs & [= -> ->]). simpl. split; [done|].
  intros ->. apply formatter_of_None.
Qed.

Lemma _format_record_keeps_None_witness :
  Forall2 (fun kv kv' => kv'.1 = kv.1 /\ (kv.2 = VNone -> kv'.2 = VNone))
    [("id", VInt 2); ("ts", VNone); ("val", VNone)]
    [("id", VInt 2); ("ts", VNone); ("val", VNone)].
Proof.
  apply (_format_record_keeps_None (example_stream unsorted_table None)).
  reflexivity.
Defined.

(** X10: formatting is idempotent on records: a record that
    [_format_record] returned is returned unchanged when it is formatted
    again with the same stream's formatters. *)
Theorem _format_record_idempotent (self : IcebergTableStream) (record out : Record_) :
  _format_record record (_create_formatters self) = Ok out ->
  _format_record out (_create_formatters self) = Ok out.
Proof.
  intros Hok. apply _format_record_created in Hok.
  induction Hok as [|[k v] [k' v'] record out (s & Hs & Heq) _ IH]; simpl; [done|].
  simpl in Hs. injection Heq as -> ->.
  rewrite _create_formatters_lookup, Hs. simpl. rewrite IH.
  by rewrite formatter_of_idempotent.
Qed.

Lemma _format_record_idempotent_witness :
  _format_record [("id", VInt 1); ("ts", VStr "2023-01-05"); ("val", VStr "a")]
    (_create_formatters (example_stream unsorted_table None))
  = Ok [("id", VInt 1); ("ts", VStr "2023-01-05"); ("val", VStr "a")].
Proof.
  apply (_format_record_idempotent (example_stream unsorted_table None)
           [("id", VInt 1); ("ts", VDatetime (Datetime 2023 1 5 10 0 0 0 None));
            ("val", VStr "a")]).
  reflexivity.
Defined.

(** ** Generators *)

Lemma seq_nil_l {A} (r : Run A) : seq (of_list []) r = r.
Proof. by destruct r. Qed.

Lemma seq_assoc {A} (r1 r2 r3 : Run A) : seq (seq r1 r2) r3 = seq r1 (seq r2 r3).
Proof.
  destruct r1 as [ys1 [e1|]], r2 as [ys2 [e2|]], r3 as [ys3 e3]; unfold seq; simpl;
    try done. by rewrite app_assoc.
Qed.

Lemma for_each_seq {A B} (xs : list A) (body : A -> Run B) (r1 r2 : Run B) :
  seq (for_each xs body r1) r2 = for_each xs body (seq r1 r2).
Proof.
  induction xs as [|x xs IH]; simpl; [done|]. by rewrite seq_assoc, IH.
Qed.

Lemma for_each_app {A B} (xs ys : list A) (body : A -> Run B) (rest : Run B) :
  for_each (xs ++ ys) body rest = for_each xs body (for_each ys body rest).
Proof. induction xs as [|x xs IH]; simpl; [done|]. by rewrite IH. Qed.

(** Two nested loops yield what one loop over the concatenation yields. *)
Lemma for_each_concat {A B C} (xs : list A) (g : A -> list B) (body : B -> Run C)
    (rest : Run C) :
  for_each xs (fun x => for_each (g x) body (of_list [])) rest
  = for_each (concat (g <$> xs)) body rest.
Proof.
  induction xs as [|x xs IH]; simpl; [done|].
  by rewrite for_each_app, for_each_seq, seq_nil_l, IH.
Qed.

(** A loop whose every step returns a value yields those values, then goes
    on with [rest]. *)
Lemma for_each_all_ok {A B} (f : A -> result B) (xs : list A) (ys : list B)
    (rest : Run B) :
  Forall2 (fun x y => f x = Ok y) xs ys ->
  for_each xs (fun x => yield_result (f x)) rest
  = MkRun (ys ++ yielded rest) (raised rest).
Proof.
  induction 1 as [|x y xs ys Hxy _ IH]; simpl; [by destruct rest|].
  by rewrite Hxy, IH.
Qed.

(** A loop stops at its first step that raises, having yielded the values
    of the steps before. *)
Lemma for_each_first_raise {A B} (f : A -> result B) (pre post : list A) (x : A)
    (ys : list B) (e : Error) (rest : Run B) :
  Forall2 (fun x y => f x = Ok y) pre ys ->
  f x = Raise e ->
  for_each (pre ++ x :: post) (fun x => yield_result (f x)) rest = MkRun ys (Some e).
Proof.
  intros Hpre Hx. rewrite for_each_app. simpl. rewrite Hx.
  rewrite (for_each_all_ok f pre ys) by done. simpl. by rewrite app_nil_r.
Qed.

(** ** [_create_sorted_batch_reader] on a batch without the column *)

Lemma column_index_None (name : string) (names : list string) :
  name ∉ names -> column_index name names = None.
Proof.
  induction names as [|n names IH]; intros Hnot; simpl; [done|].
  destruct (String.eqb_spec n name) as [->|Hne].
  - destruct Hnot. by left.
  - rewrite IH; [done|]. intros Hin. apply Hnot. by right.
Qed.

Lemma sorted_copies (reader : list RecordBatch) (sort_key : string) :
  Forall (fun b => sort_key ∈ column_names b) reader ->
  exists out, Forall2 (fun b b' => sort_by b sort_key = Ok b') reader out
              /\ Forall2 (sorted_copy_of sort_key) reader out.
Proof.
  induction 1 as [|b reader Hb _ (out & Hrun & Hrel)].
  - exists []. split; constructor.
  - destruct (sort_by_sorted_copy b sort_key Hb) as (b' & Hsort & Hcopy).
    exists (b' :: out). split; by constructor.
Qed.

(** X4: when a batch lacks the sort column, the sorted reader yields the
    sorted copies of the batches before it, in order, and then raises at
    that batch; the batches after it are never reached. *)
Theorem _create_sorted_batch_reader_stops_at_missing_column
    (pre post : list RecordBatch) (b : RecordBatch) (sort_key : string) :
  Forall (fun b => sort_key ∈ column_names b) pre ->
  sort_key ∉ column_names b ->
  exists out,
    _create_sorted_batch_reader (pre ++ b :: post) sort_key
    = MkRun out (Some (ArrowInvalid sort_key))
    /\ Forall2 (sorted_copy_of sort_key) pre out.
Proof.
  intros Hpre Hb.
  destruct (sorted_copies pre sort_key Hpre) as (out & Hrun & Hrel).
  exists out. split; [|done].
  unfold _create_sorted_batch_reader.
  apply (for_each_first_raise (fun b => sort_by b sort_key)); [done|].
  unfold sort_by. by rewrite column_index_None.
Qed.

Lemma _create_sorted_batch_reader_stops_at_missing_column_witness :
  exists out,
    _create_sorted_batch_reader
      ([Batch ["ts"] [[VInt 2]; [VInt 1]]] ++ Batch ["id"] [[VInt 7]]
         :: [Batch ["ts"] [[VInt 4]; [VInt 3]]]) "ts"
    = MkRun out (Some (ArrowInvalid "ts"))
    /\ Forall2 (sorted_copy_of "ts") [Batch ["ts"] [[VInt 2]; [VInt 1]]] out.
Proof.
  apply _create_sorted_batch_reader_stops_at_missing_column.
  - repeat constructor.
  - vm_compute. intros Hin. inversion Hin as [|? ? ? Hin']; subst. inversion Hin'.
Defined.

(** ** [get_records] from the scan to the records *)

Lemma keys_zip_Forall (P : string -> Prop) (names : list string) (row : list Value) :
  Forall P names -> Forall P (keys (zip names row)).
Proof.
  unfold keys. intros Hall. revert row.
  induction Hall as [|n names Hn _ IH]; intros [|v row]; simpl; constructor; auto.
Qed.

Lemma rows_in_schema (self : IcebergTableStream) (batches : list RecordBatch) :
  Forall (columns_in_schema self) batches ->
  Forall (fun r => Forall (fun k => is_Some (schema self !! k)) (keys r))
         (all_rows batches).
Proof.
  unfold all_rows. induction 1 as [|b batches Hb _ IH]; simpl; [constructor|].
  apply Forall_app. split; [|done].
  unfold to_pylist. apply Forall_forall. intros r Hr.
  apply list_elem_of_In, in_map_iff in Hr as (row & <- & _).
  by apply keys_zip_Forall.
Qed.

Lemma format_rows_ok (self : IcebergTableStream) (rows : list Record_) :
  Forall (fun r => Forall (fun k => is_Some (schema self !! k)) (keys r)) rows ->
  Forall2 (fun r o => _format_record r (_create_formatters self) = Ok o)
          rows (expected_record self <$> rows).
Proof.
  induction 1 as [|r rows Hr _ IH]; simpl; constructor; [|done].
  by apply format_expected.
Qed.

Lemma format_batches_rows (self : IcebergTableStream) (batches : list RecordBatch)
    (e : option Error) :
  format_batches self (MkRun batches e)
  = for_each (all_rows batches)
      (fun record => yield_result (_format_record record (_create_formatters self)))
      (MkRun [] e).
Proof. unfold format_batches, for_in, all_rows. simpl. apply for_each_concat. Qed.

Lemma concat_Permutation_Forall2 {A} (ls ks : list (list A)) :
  Forall2 Permutation ls ks -> concat ls ≡ₚ concat ks.
Proof.
  induction 1 as [|l k ls ks Hlk _ IH]; simpl; [done|]. by rewrite Hlk, IH.
Qed.

Lemma sorted_copies_rows (reader out : list RecordBatch) (sort_key : string) :
  Forall2 (sorted_copy_of sort_key) reader out ->
  all_rows out ≡ₚ all_rows reader.
Proof.
  intros Hrel. unfold all_rows. apply concat_Permutation_Forall2.
  induction Hrel as [|b b' reader out (i & _ & Hn & Hp & _) _ IH]; simpl; constructor;
    [|done].
  unfold to_pylist. rewrite Hn. by apply Permutation_map.
Qed.

Lemma sorted_copies_columns (self : IcebergTableStream) (reader out : list RecordBatch)
    (sort_key : string) :
  Forall2 (sorted_copy_of sort_key) reader out ->
  Forall (columns_in_schema self) reader -> Forall (columns_in_schema self) out.
Proof.
  induction 1 as [|b b' reader out (i & _ & Hn & _) _ IH]; intros Hall; [constructor|].
  inversion Hall; subst. constructor; [|by apply IH].
  unfold columns_in_schema in *. by rewrite Hn.
Qed.

(** X11: when the filter is built, every column the scan delivers has a
    specification, and (where the per-batch sort applies) every batch has
    the replication key's column, [get_records] raises nothing and yields
    exactly the rows of the scan, each formatted: no row is lost, repeated
    or invented. Without the per-batch sort they come in scan order. *)
Theorem get_records_yields_every_row host (self : IcebergTableStream) (context : Context)
    (row_filter : Expression) :
  filter_expression host self context = Ok row_filter ->
  Forall (columns_in_schema self) (scan (_iceberg_table self) row_filter) ->
  (forall key, replication_key self = Some key -> is_sorted self = false ->
               Forall (fun b => key ∈ column_names b)
                      (scan (_iceberg_table self) row_filter)) ->
  exists out,
    get_records host self context = MkRun out None
    /\ out ≡ₚ expected_record self <$> all_rows (scan (_iceberg_table self) row_filter)
    /\ (replication_key self = None \/ is_sorted self = true ->
        out = expected_record self <$> all_rows (scan (_iceberg_table self) row_filter)).
Proof.
  intros Hf Hcols Hkey. rewrite get_records_unfold, Hf.
  assert (Hdone : forall batches,
             Forall (columns_in_schema self) batches ->
             format_batches self (MkRun batches None)
             = MkRun (expected_record self <$> all_rows batches) None).
  { intros batches Hb. rewrite format_batches_rows.
    rewrite (for_each_all_ok _ _ (expected_record self <$> all_rows batches)).
    - simpl. by rewrite app_nil_r.
    - by apply format_rows_ok, rows_in_schema. }
  unfold batch_reader.
  destruct (replication_key self) as [key|] eqn:Hk.
  - destruct (is_sorted self) eqn:Hs; simpl.
    + eexists. split; [by apply Hdone|]. split; done.
    + destruct (sorted_copies _ key (Hkey key eq_refl eq_refl)) as (bs & Hrun & Hrel).
      unfold _create_sorted_batch_reader.
      rewrite (for_each_all_ok (fun b => sort_by b key) _ bs) by done.
      simpl. rewrite app_nil_r.
      eexists. split; [apply Hdone; by eapply sorted_copies_columns|].
      split.
      * apply Permutation_map. by eapply sorted_copies_rows.
      * by intros [?|?].
  - eexists. split; [by apply Hdone|]. split; done.
Qed.

Lemma get_records_yields_every_row_witness :
  exists out,
    get_records (host_resolving (VStr "2023-01-01T00:00:00"))
      (example_stream unsorted_table (Some "ts")) None = MkRun out None
    /\ out ≡ₚ expected_record (example_stream unsorted_table (Some "ts"))
              <$> all_rows (scan (_iceberg_table (example_stream unsorted_table (Some "ts")))
                              (GreaterThan (Some "ts") (VStr "2023-01-01T00:00:00")))
    /\ (replication_key (example_stream unsorted_table (Some "ts")) = None
        \/ is_sorted (example_stream unsorted_table (Some "ts")) = true ->
        out = expected_record (example_stream unsorted_table (Some "ts"))
              <$> all_rows (scan (_iceberg_table (example_stream unsorted_table (Some "ts")))
                              (GreaterThan (Some "ts") (VStr "2023-01-01T00:00:00")))).
Proof.
  apply (get_records_yields_every_row (host_resolving (VStr "2023-01-01T00:00:00"))
           (example_stream unsorted_table (Some "ts")) None
           (GreaterThan (Some "ts") (VStr "2023-01-01T00:00:00"))).
  - reflexivity.
  - repeat constructor; vm_compute; eauto.
  - intros key [= <-] _. repeat constructor.
Defined.

(** X12: [get_records] stops at the first row that has a field outside the
    schema: it has then yielded the rows before that one, formatted, and it
    raises [KeyError] for a field of that row; no later row is yielded. *)
Theorem get_records_stops_at_unknown_field host (self : IcebergTableStream)
    (context : Context) (row_filter : Expression) (batches : list RecordBatch)
    (pre post : list Record_) (r : Record_) :
  filter_expression host self context = Ok row_filter ->
  batch_reader self row_filter = MkRun batches None ->
  all_rows batches = (pre ++ r :: post)%list ->
  Forall (fun r => Forall (fun k => is_Some (schema self !! k)) (keys r)) pre ->
  ~ Forall (fun k => is_Some (schema self !! k)) (keys r) ->
  exists k,
    k ∈ keys r /\ schema self !! k = None
    /\ get_records host self context
       = MkRun (expected_record self <$> pre) (Some (KeyError k)).
Proof.
  intros Hf Hreader Hrows Hpre Hr.
  destruct (format_unknown_field self r Hr) as (k & Hin & Hk & Hraise).
  exists k. split; [done|]. split; [done|].
  rewrite get_records_unfold, Hf, Hreader, format_batches_rows, Hrows.
  apply (for_each_first_raise
           (fun record => _format_record record (_create_formatters self)));
    [by apply format_rows_ok|done].
Qed.

Lemma get_records_stops_at_unknown_field_witness :
  exists k,
    k ∈ keys [("id", VInt 2); ("new", VInt 0)]
    /\ schema (stream_over {[ "id" := MkFieldSchema ["integer"] None ]}
                 [Batch ["id"] [[VInt 1]]; Batch ["id"; "new"] [[VInt 2; VInt 0]]])
         !! k = None
    /\ get_records (host_resolving VNone)
         (stream_over {[ "id" := MkFieldSchema ["integer"] None ]}
            [Batch ["id"] [[VInt 1]]; Batch ["id"; "new"] [[VInt 2; VInt 0]]])
         None
       = MkRun (expected_record
                  (stream_over {[ "id" := MkFieldSchema ["integer"] None ]}
                     [Batch ["id"] [[VInt 1]]; Batch ["id"; "new"] [[VInt 2; VInt 0]]])
                  <$> [[("id", VInt 1)]])
           (Some (KeyError k)).
Proof.
  apply (get_records_stops_at_unknown_field (host_resolving VNone)
           (stream_over {[ "id" := MkFieldSchema ["integer"] None ]}
              [Batch ["id"] [[VInt 1]]; Batch ["id"; "new"] [[VInt 2; VInt 0]]])
           None AlwaysTrue
           [Batch ["id"] [[VInt 1]]; Batch ["id"; "new"] [[VInt 2; VInt 0]]]
           [[("id", VInt 1)]] [] [("id", VInt 2); ("new", VInt 0)]).
  - reflexivity.
  - reflexivity.
  - reflexivity.
  - repeat constructor; vm_compute; eauto.
  - intros Hall. apply Forall_cons in Hall as [_ Hall].
    apply Forall_cons in Hall as [[s Hs] _]. vm_compute in Hs. discriminate Hs.
Defined.

(** ** [__init__] *)

Lemma init_table gen (nm : string) (t : IcebergTable) (self : IcebergTableStream) :
  __init__ gen nm t = Ok self -> _iceberg_table self = t.
Proof.
  unfold __init__.
  destruct (sort_order_fields t) as [|sf [|sf' sfs]]; simpl;
    try (by intros [= <-]).
  destruct (find_field t (source_id sf)); [|done]. by intros [= <-].
Qed.

(** X1: the stream [__init__] returns has a replication key exactly when
    the table's sort order has one field, and the key is then the name of
    that field; a table with no sort field or with several gives a stream
    without a key. The stream keeps the table and the generated schema. *)
Theorem init_replication_key_is_the_single_sort_field gen (nm : string)
    (t : IcebergTable) (self : IcebergTableStream) :
  __init__ gen nm t = Ok self ->
  _iceberg_table self = t
  /\ schema self = gen (table_schema t)
  /\ forall k, _replication_key self = Some k
               <-> exists sf f, sort_order_fields t = [sf]
                                /\ find_field t (source_id sf) = Ok f
                                /\ field_name f = k.
Proof.
  unfold __init__.
  destruct (sort_order_fields t) as [|sf [|sf' sfs]] eqn:Hso; simpl.
  - intros [= <-]. simpl. repeat split; try done. by intros (? & ? & ? & _).
  - destruct (find_field t (source_id sf)) as [f|] eqn:Hf; [|done].
    intros [= <-]. simpl. repeat split; try done.
    + intros [= <-]. by exists sf, f.
    + intros (sf0 & f0 & [= <-] & Hf0 & <-). rewrite Hf in Hf0. by injection Hf0 as <-.
  - intros [= <-]. simpl. repeat split; try done. by intros (? & ? & ? & _).
Qed.

Lemma init_replication_key_is_the_single_sort_field_witness :
  _iceberg_table (example_stream table_sorted_on_id (Some "id")) = table_sorted_on_id
  /\ schema (example_stream table_sorted_on_id (Some "id"))
     = example_schema (table_schema table_sorted_on_id)
  /\ forall k, _replication_key (example_stream table_sorted_on_id (Some "id")) = Some k
               <-> exists sf f, sort_order_fields table_sorted_on_id = [sf]
                                /\ find_field table_sorted_on_id (source_id sf) = Ok f
                                /\ field_name f = k.
Proof.
  apply (init_replication_key_is_the_single_sort_field example_schema "example"
           table_sorted_on_id (example_stream table_sorted_on_id (Some "id"))).
  reflexivity.
Defined.

(** X2: [__init__] fails whenever the table's sort order has exactly one
    field and the table's schema has no field with that field's source id:
    the lookup of the sort field's name raises, and no stream is built. *)
Theorem init_fails_when_single_sort_field_is_unknown gen (nm : string) (t : IcebergTable)
    (sf : SortField) :
  sort_order_fields t = [sf] ->
  Forall (fun f => field_id f <> source_id sf) (table_schema t) ->
  exists e, find_field t (source_id sf) = Raise e /\ __init__ gen nm t = Raise e.
Proof.
  intros Hso Hall. unfold __init__, find_field. rewrite Hso. simpl.
  destruct (List.find _ (table_schema t)) as [f|] eqn:Hfind; [|by eexists].
  apply find_some in Hfind as [Hin Heq]. apply Z.eqb_eq in Heq.
  rewrite Forall_forall in Hall. destruct (Hall f); [|done].
  by apply list_elem_of_In.
Qed.

Lemma init_fails_when_single_sort_field_is_unknown_witness :
  exists e,
    find_field (MkTable example_columns [MkSortField 9 Asc] example_scan) 9 = Raise e
    /\ __init__ example_schema "example"
         (MkTable example_columns [MkSortField 9 Asc] example_scan) = Raise e.
Proof.
  apply (init_fails_when_single_sort_field_is_unknown example_schema "example"
           (MkTable example_columns [MkSortField 9 Asc] example_scan)
           (MkSortField 9 Asc)).
  - reflexivity.
  - repeat constructor; discriminate.
Defined.

(** X3: a stream as [__init__] returns it never sorts: its [get_records]
    formats the batches of the scan as the table delivers them, whatever the
    replication key, because the key is set only with a sort order. *)
Theorem init_stream_get_records_never_sorts gen (nm : string) (t : IcebergTable)
    (self : IcebergTableStream) host (context : Context) :
  __init__ gen nm t = Ok self ->
  get_records host self context
  = match filter_expression host self context with
    | Raise e => fail e
    | Ok row_filter => format_batches self (of_list (scan t row_filter))
    end.
Proof.
  intros Hinit. rewrite get_records_unfold.
  destruct (filter_expression host self context) as [row_filter|]; [|done].
  rewrite (init_stream_passes_through gen nm t self row_filter Hinit).
  by rewrite (init_table gen nm t self Hinit).
Qed.

Lemma init_stream_get_records_never_sorts_witness :
  get_records (host_resolving VNone) (example_stream table_sorted_on_id (Some "id")) None
  = match filter_expression (host_resolving VNone)
            (example_stream table_sorted_on_id (Some "id")) None with
    | Raise e => fail e
    | Ok row_filter =>
        format_batches (example_stream table_sorted_on_id (Some "id"))
          (of_list (scan table_sorted_on_id row_filter))
    end.
Proof.
  apply (init_stream_get_records_never_sorts example_schema "example" table_sorted_on_id).
  reflexivity.
Defined.

(** ** The filter of [get_records] *)

Lemma naive_isoformat_not_empty (dt : datetime) : String.eqb (naive_isoformat dt) "" = false.
Proof. destruct dt. reflexivity. Qed.

Lemma naive_isoformat_replace (dt : datetime) :
  naive_isoformat (replace_tzinfo_None dt) = naive_isoformat dt.
Proof. by destruct dt. Qed.

(** The filter for a truthy text cursor that parses. *)
Lemma filter_of_parsed_text host (self : IcebergTableStream) (context : Context)
    (s : string) (dt : datetime) :
  get_starting_replication_key_value host self context = VStr s ->
  truthy (VStr s) = true ->
  fromisoformat host s = Ok dt ->
  filter_expression host self context
  = new_GreaterThan host (replication_key self) (VStr (naive_isoformat dt)).
Proof.
  intros Hv Ht Hp. unfold filter_expression. rewrite Hv, Ht, Hp.
  by rewrite (proj2 (reencoded_cursor_is_naive dt)).
Qed.

Lemma reference_parses_back (v : Value) : parses_back (host_resolving v).
Proof.
  intros s dt. simpl. unfold reference_fromisoformat.
  destruct (parse_isoformat s) as [dt'|] eqn:Hp; [|done].
  intros [= <-]. destruct (parse_isoformat_valid s dt' Hp) as [Hd Hc].
  by rewrite parse_isoformat_naive_isoformat.
Qed.

(** X13: with a parser that reads back the ISO texts of the datetimes it
    returns, the literal of the predicate is a fixed point of the cursor
    conversion: when [get_records] builds [GreaterThan key literal], the
    literal is truthy, and with the literal itself as the cursor value it
    builds the same predicate. *)
Theorem filter_literal_is_a_fixed_point host (self : IcebergTableStream)
    (context : Context) (key : option string) (literal : Value) :
  parses_back host ->
  filter_expression host self context = Ok (GreaterThan key literal) ->
  truthy literal = true
  /\ filter_expression (with_cursor literal host) self context
     = Ok (GreaterThan key literal).
Proof.
  intros Hback Hf.
  assert (Hcall : forall lit,
             new_GreaterThan host (replication_key self) lit = Ok (GreaterThan key literal) ->
             lit = literal
             /\ new_GreaterThan (with_cursor literal host) (replication_key self) literal
                = Ok (GreaterThan key literal)).
  { intros lit Hnew. pose proof (new_GreaterThan_Ok _ _ _ _ Hnew) as Heq.
    injection Heq as _ Hlit. subst lit. split; [done|]. by rewrite <- Hnew. }
  unfold filter_expression in Hf.
  destruct (truthy (get_starting_replication_key_value host self context)) eqn:Ht;
    [|done].
  destruct (get_starting_replication_key_value host self context) as [| | |s| | |] eqn:Hv;
    try (by simpl in Ht);
    try (destruct (Hcall _ Hf) as [<- Hnew]; split; [done|];
         unfold filter_expression;
         cbn [with_cursor get_starting_replication_key_value];
         rewrite Ht; exact Hnew).
  destruct (fromisoformat host s) as [dt|] eqn:Hp; [|done].
  rewrite (proj2 (reencoded_cursor_is_naive dt)) in Hf.
  destruct (Hcall _ Hf) as [<- Hnew].
  assert (Htl : truthy (VStr (naive_isoformat dt)) = true).
  { unfold truthy. by rewrite naive_isoformat_not_empty. }
  split; [done|].
  rewrite (filter_of_parsed_text (with_cursor (VStr (naive_isoformat dt)) host)
             self context (naive_isoformat dt) (replace_tzinfo_None dt));
    [|done|done|by apply (Hback s)].
  by rewrite naive_isoformat_replace.
Qed.

Lemma filter_literal_is_a_fixed_point_witness :
  truthy (VStr "2023-01-01T00:00:00") = true
  /\ filter_expression
       (with_cursor (VStr "2023-01-01T00:00:00")
          (host_resolving (VStr "2023-01-01 00:00:00.000+02:00")))
       (example_stream unsorted_table (Some "ts")) None
     = Ok (GreaterThan (Some "ts") (VStr "2023-01-01T00:00:00")).
Proof.
  apply (filter_literal_is_a_fixed_point
           (host_resolving (VStr "2023-01-01 00:00:00.000+02:00"))
           (example_stream unsorted_table (Some "ts")) None).
  - apply reference_parses_back.
  - reflexivity.
Defined.

(** X14: the UTC offset of a text cursor is dropped, not applied: two
    cursor texts that [fromisoformat] parses to values with the same date and
    clock give the same filter, whatever their offsets. *)
Theorem cursor_offset_is_dropped host (self : IcebergTableStream)
    (context : Context) (s1 s2 : string) (dt1 dt2 : datetime) :
  truthy (VStr s1) = true -> truthy (VStr s2) = true ->
  fromisoformat host s1 = Ok dt1 -> fromisoformat host s2 = Ok dt2 ->
  replace_tzinfo_None dt1 = replace_tzinfo_None dt2 ->
  filter_expression (with_cursor (VStr s1) host) self context
  = filter_expression (with_cursor (VStr s2) host) self context.
Proof.
  intros Ht1 Ht2 Hp1 Hp2 Heq.
  rewrite (filter_of_parsed_text (with_cursor (VStr s1) host) self context s1 dt1)
    by done.
  rewrite (filter_of_parsed_text (with_cursor (VStr s2) host) self context s2 dt2)
    by done.
  by rewrite <- (naive_isoformat_replace dt1), Heq, naive_isoformat_replace.
Qed.

Lemma cursor_offset_is_dropped_witness :
  filter_expression
    (with_cursor (VStr "2023-01-01T00:00:00+02:00") (host_resolving VNone))
    (example_stream unsorted_table (Some "ts")) None
  = filter_expression
      (with_cursor (VStr "2023-01-01T00:00:00-05:00") (host_resolving VNone))
      (example_stream unsorted_table (Some "ts")) None.
Proof.
  apply (cursor_offset_is_dropped (host_resolving VNone)
           (example_stream unsorted_table (Some "ts")) None
           "2023-01-01T00:00:00+02:00" "2023-01-01T00:00:00-05:00"
           (Datetime 2023 1 1 0 0 0 0 (Some 7200000000))
           (Datetime 2023 1 1 0 0 0 0 (Some (-18000000000))));
    reflexivity.
Defined.

(** ** [get_records] when a step fails *)

(** X16: when the per-batch sort applies and a batch of the scan lacks the
    replication key's column, [get_records] yields the formatted rows of the
    batches before that one and then raises the error of the sort; the
    failing batch and the batches after it yield nothing. *)
Theorem get_records_stops_at_batch_without_key host (self : IcebergTableStream)
    (context : Context) (row_filter : Expression) (key : string)
    (pre post : list RecordBatch) (b : RecordBatch) :
  filter_expression host self context = Ok row_filter ->
  replication_key self = Some key ->
  is_sorted self = false ->
  scan (_iceberg_table self) row_filter = (pre ++ b :: post)%list ->
  Forall (fun b => key ∈ column_names b) pre ->
  Forall (columns_in_schema self) pre ->
  key ∉ column_names b ->
  exists out,
    get_records host self context = MkRun out (Some (ArrowInvalid key))
    /\ out ≡ₚ expected_record self <$> all_rows pre.
Proof.
  intros Hf Hk Hs Hscan Hpre Hcols Hb.
  destruct (sorted_copies pre key Hpre) as (bs & Hrun & Hrel).
  rewrite get_records_unfold, Hf. unfold batch_reader. rewrite Hk, Hs, Hscan. simpl.
  unfold _create_sorted_batch_reader.
  rewrite (for_each_first_raise (fun b => sort_by b key) pre post b bs
             (ArrowInvalid key)); [|done|].
  - rewrite format_batches_rows.
    rewrite (for_each_all_ok _ _ (expected_record self <$> all_rows bs)).
    + simpl. rewrite app_nil_r. eexists. split; [done|].
      apply Permutation_map. by eapply sorted_copies_rows.
    + apply format_rows_ok, rows_in_schema. by eapply sorted_copies_columns.
  - unfold sort_by. by rewrite column_index_None.
Qed.

Lemma get_records_stops_at_batch_without_key_witness :
  exists out,
    get_records (host_resolving VNone)
      (set_replication_key (Some "ts")
         (stream_over {[ "ts" := MkFieldSchema ["integer"] None;
                         "id" := MkFieldSchema ["integer"] None ]}
            [Batch ["ts"] [[VInt 2]; [VInt 1]]; Batch ["id"] [[VInt 7]]]))
      None
    = MkRun out (Some (ArrowInvalid "ts"))
    /\ out ≡ₚ expected_record
               (set_replication_key (Some "ts")
                  (stream_over {[ "ts" := MkFieldSchema ["integer"] None;
                                  "id" := MkFieldSchema ["integer"] None ]}
                     [Batch ["ts"] [[VInt 2]; [VInt 1]]; Batch ["id"] [[VInt 7]]]))
               <$> all_rows [Batch ["ts"] [[VInt 2]; [VInt 1]]].
Proof.
  apply (get_records_stops_at_batch_without_key (host_resolving VNone)
           (set_replication_key (Some "ts")
              (stream_over {[ "ts" := MkFieldSchema ["integer"] None;
                              "id" := MkFieldSchema ["integer"] None ]}
                 [Batch ["ts"] [[VInt 2]; [VInt 1]]; Batch ["id"] [[VInt 7]]]))
           None AlwaysTrue "ts" [Batch ["ts"] [[VInt 2]; [VInt 1]]] []
           (Batch ["id"] [[VInt 7]])).
  - reflexivity.
  - reflexivity.
  - reflexivity.
  - reflexivity.
  - repeat constructor.
  - repeat constructor; vm_compute; eauto.
  - vm_compute. intros Hin. inversion Hin as [|? ? ? Hin']; subst. inversion Hin'.
Defined.

Lemma format_ok_expected (self : IcebergTableStream) (record out : Record_) :
  _format_record record (_create_formatters self) = Ok out ->
  out = expected_record self record.
Proof.
  intros Hok. apply _format_record_created in Hok. unfold expected_record.
  induction Hok as [|[k v] [k' v'] record out (s & Hs & Heq) _ IH]; simpl; [done|].
  simpl in Hs, Heq. rewrite IH, Heq. f_equal. f_equal.
  by apply formatter_of_truncates.
Qed.

Lemma for_each_format_prefix (self : IcebergTableStream) (rows : list Record_)
    (e : option Error) :
  exists n,
    yielded (for_each rows
               (fun record => yield_result (_format_record record (_create_formatters self)))
               (MkRun [] e))
    = expected_record self <$> take n rows.
Proof.
  induction rows as [|r rows [n IH]]; simpl.
  - by exists 0%nat.
  - destruct (_format_record r (_create_formatters self)) as [o|err] eqn:Hr; simpl.
    + exists (S n). unfold seq. simpl. rewrite IH.
      by rewrite (format_ok_expected self r o Hr).
    + by exists 0%nat.
Qed.

(** X17: whatever happens, what [get_records] has yielded is a prefix of the
    rows of its batch reader, each formatted: it never yields a record that
    is not the formatting of a row, never skips a row and never changes the
    order of the rows of a batch. *)
Theorem get_records_yields_a_prefix_of_the_rows host (self : IcebergTableStream)
    (context : Context) (row_filter : Expression) :
  filter_expression host self context = Ok row_filter ->
  exists n,
    yielded (get_records host self context)
    = expected_record self <$> take n (all_rows (yielded (batch_reader self row_filter))).
Proof.
  intros Hf. rewrite get_records_unfold, Hf.
  destruct (batch_reader self row_filter) as [batches e]. simpl.
  rewrite format_batches_rows. apply for_each_format_prefix.
Qed.

Lemma get_records_yields_a_prefix_of_the_rows_witness :
  exists n,
    yielded (get_records (host_resolving VNone)
               (stream_over {[ "id" := MkFieldSchema ["integer"] None ]}
                  [Batch ["id"] [[VInt 1]]; Batch ["id"; "new"] [[VInt 2; VInt 0]]])
               None)
    = expected_record
        (stream_over {[ "id" := MkFieldSchema ["integer"] None ]}
           [Batch ["id"] [[VInt 1]]; Batch ["id"; "new"] [[VInt 2; VInt 0]]])
        <$> take n
              (all_rows
                 (yielded
                    (batch_reader
                       (stream_over {[ "id" := MkFieldSchema ["integer"] None ]}
                          [Batch ["id"] [[VInt 1]];
                           Batch ["id"; "new"] [[VInt 2; VInt 0]]])
                       AlwaysTrue))).
Proof.
  apply (get_records_yields_a_prefix_of_the_rows (host_resolving VNone)
           (stream_over {[ "id" := MkFieldSchema ["integer"] None ]}
              [Batch ["id"] [[VInt 1]]; Batch ["id"; "new"] [[VInt 2; VInt 0]]])
           None AlwaysTrue).
  reflexivity.
Defined.
